(** * insight-loop / local-agent: the agent's dispatch loop and memory manager

    A shallow embedding of [src/local-agent/src/agent.py] (class [Agent]),
    [src/local-agent/src/model.py] (class [ModelInterface]) and
    [src/local-agent/src/servers/nexa.py] (class [NexaClient]), followed by
    the properties of the specification that concern them.

    Conventions of the embedding.
    - A Python [str] is a [string]; a character is read as a code point in
      the range 0..255.  Strings with code points above 255 are outside the
      model.
    - A Python exception is a value of [exn]; a call that can raise returns
      a [Result].  Statements run in the monad [M], which threads the
      interpreter-visible state [St] and keeps every mutation made before a
      raise, as Python does.
    - The remote endpoint, the clock and whatever else a tool may touch is
      an abstract [World]; a request to the model is a function of the
      prompt and the world.  [St] records, as ghost state, the prompts sent
      to the model in order ([calls]). *)

From Stdlib Require Import ZArith Lia Ascii String List.
From stdpp Require Import base option list gmap strings.
Import ListNotations.

Local Open Scope Z_scope.

(** ** Python strings *)

Module PyStr.

(** The newline character, written [\n] in the source. *)
Definition nl : string := String (ascii_of_nat 10) EmptyString.

Definition code (c : ascii) : nat := nat_of_ascii c.

Definition between (lo hi : nat) (c : ascii) : bool :=
(Nat.leb lo (code c)) && (Nat.leb (code c) hi).

(** [str.isspace] on one character (code points below 256): TAB..CR,
  FS..US, space, NEL and NBSP. *)
Definition isspace (c : ascii) : bool :=
between 9 13 c || between 28 32 c || between 133 133 c || between 160 160 c.

(** The class [\w] of module [re] on [str] patterns: alphanumeric
  ([str.isalnum]) or underscore.  Below 256 the alphanumerics are the
  ASCII digits and letters, the superscript digits and fractions, the
  ordinal indicators, the micro sign and the Latin-1 letters. *)
Definition isword (c : ascii) : bool :=
between 48 57 c || between 65 90 c || between 97 122 c || between 95 95 c
|| between 170 170 c || between 178 179 c || between 181 181 c
|| between 185 186 c || between 188 190 c
|| between 192 214 c || between 216 246 c || between 248 255 c.

Fixpoint lstrip_chars (s : list ascii) : list ascii :=
match s with
| c :: s' => if isspace c then lstrip_chars s' else s
| [] => []
end.

Definition rstrip_chars (s : list ascii) : list ascii :=
rev (lstrip_chars (rev s)).

(** [str.strip()] *)
Definition strip (s : string) : string :=
string_of_list_ascii (rstrip_chars (lstrip_chars (list_ascii_of_string s))).

Definition lower_char (c : ascii) : ascii :=
if between 65 90 c || between 192 214 c || between 216 222 c
then ascii_of_nat (code c + 32) else c.

Definition upper_char (c : ascii) : ascii :=
if between 97 122 c then ascii_of_nat (code c - 32) else c.

(** [str.lower()] *)
Definition lower (s : string) : string :=
string_of_list_ascii (map lower_char (list_ascii_of_string s)).

(** [str.capitalize()]: first character upper-cased, the rest lower-cased.
  The program applies it to role names only, which are ASCII. *)
Definition capitalize (s : string) : string :=
match s with
| EmptyString => EmptyString
| String c s' => String (upper_char c) (lower s')
end.

(** Truthiness of a [str]: non-empty. *)
Definition truthy (s : string) : bool :=
match s with EmptyString => false | String _ _ => true end.

(** [sep.join(parts)] *)
Fixpoint join (sep : string) (parts : list string) : string :=
match parts with
| [] => EmptyString
| [p] => p
| p :: ps => p +:+ sep +:+ join sep ps
end.

End PyStr.

(** ** The fragment of Python's [re] used by the agent

    A backtracking matcher in continuation-passing style, with the
    priorities of [re]: a greedy quantifier tries the longest run first and
    gives characters back one at a time. *)

Module Re.

Inductive cclass :=
| CWord   (* \w *)
| CAny.   (* .  under re.DOTALL: every character, newline included *)

Inductive regex :=
| RBol                      (* ^ *)
| REol                      (* $ without re.MULTILINE *)
| RLit (c : ascii)          (* an escaped literal such as \( *)
| RPlus (k : cclass)        (* k+ greedy *)
| RStar (k : cclass)        (* k* greedy *)
| RGroup (r : regex)        (* ( r ), capturing *)
| RSeq (r1 r2 : regex).

Definition in_class (k : cclass) (c : ascii) : bool :=
match k with
| CWord => PyStr.isword c
| CAny => true
end.

(** Position of the matcher: the input still to read and the groups closed
  so far, in closing order (the agent's pattern has no nested groups, so
  this is the numbering order of [match.groups()]). *)
Definition pos : Type := list ascii * list (list ascii).

Section Matcher.
Context {R : Type}.

Fixpoint star (k : cclass) (s : list ascii) (cont : list ascii -> option R)
  : option R :=
  match s with
  | c :: s' =>
      if in_class k c then
        match star k s' cont with
        | Some r => Some r
        | None => cont s
        end
      else cont s
  | [] => cont s
  end.

Fixpoint rmatch (inp : list ascii) (r : regex) (p : pos)
    (cont : pos -> option R) : option R :=
  match r with
  | RBol =>
      if Nat.eqb (List.length (fst p)) (List.length inp) then cont p else None
  | REol =>
      match fst p with
      | [] => cont p
      | [c] => if Ascii.eqb c (ascii_of_nat 10) then cont p else None
      | _ => None
      end
  | RLit c =>
      match fst p with
      | c' :: s' => if Ascii.eqb c c' then cont (s', snd p) else None
      | [] => None
      end
  | RPlus k =>
      match fst p with
      | c :: s' =>
          if in_class k c then star k s' (fun s'' => cont (s'', snd p))
          else None
      | [] => None
      end
  | RStar k => star k (fst p) (fun s'' => cont (s'', snd p))
  | RGroup r' =>
      rmatch inp r' p (fun p' =>
        cont (fst p',
              snd p' ++ [firstn (List.length (fst p) - List.length (fst p'))
                                (fst p)]))
  | RSeq r1 r2 => rmatch inp r1 p (fun p' => rmatch inp r2 p' cont)
  end.
End Matcher.

(** [pattern.match(s)] followed by [.groups()]: [None] when the pattern
  does not match at the start of [s]. *)
Definition re_match (r : regex) (s : string) : option (list string) :=
let inp := list_ascii_of_string s in
rmatch inp r (inp, []) (fun p => Some (map string_of_list_ascii (snd p))).

End Re.

(** The pattern compiled in [Agent.chat_completion] with flag [re.DOTALL]:
    start anchor, a group of one or more word characters, a literal opening
    parenthesis, a group of any characters (greedy), a literal closing
    parenthesis, end anchor. *)
Definition tool_call_pattern : Re.regex :=
  Re.RSeq Re.RBol
   (Re.RSeq (Re.RGroup (Re.RPlus Re.CWord))
     (Re.RSeq (Re.RLit "(")
       (Re.RSeq (Re.RGroup (Re.RStar Re.CAny))
         (Re.RSeq (Re.RLit ")") Re.REol)))).

(** ** Exceptions and results *)

(** The exception classes the modelled code can meet.  [JSONDecodeError] is
    a subclass of [ValueError] (so is the one [requests] raises). *)
Inductive exn_class :=
| ValueError
| JSONDecodeError
| KeyError
| IndexError
| TypeError
| ConnectionError
| EOFError
| NotImplementedError
| OtherException (name : string).

(** An exception instance: its class and [str(e)]. *)
Record exn := Exn { exn_cls : exn_class; exn_str : string }.

(** [isinstance(e, ValueError)] *)
Definition is_ValueError (e : exn) : bool :=
  match exn_cls e with
  | ValueError | JSONDecodeError => true
  | _ => false
  end.

Inductive Result (A : Type) :=
| Ok (a : A)
| Raise (e : exn).
Arguments Ok {A} a.
Arguments Raise {A} e.

(** ** Messages *)

Inductive Role := system | user | assistant.

(** The string stored under key [role]. *)
Definition role_str (r : Role) : string :=
  match r with
  | system => "system"
  | user => "user"
  | assistant => "assistant"
  end.

(** A message is the dict with keys [role] and [content]. *)
Record Message := Msg { role : Role; content : string }.

(** The f-string [{role.capitalize()}: {content}] used for every rendered
    window entry. *)
Definition render (message : Message) : string :=
  PyStr.capitalize (role_str (role message)) +:+ ": " +:+ content message.

(** ** The agent

    Everything below is parameterised by the type [World] of the state
    outside the interpreter. *)

Section WithWorld.
Context {World : Type}.

(** An effectful call into the world that may raise. *)
Definition Call (A : Type) : Type := World -> Result A * World.

(** Modelled from the spec: class [Tool] of [src/tools.py] is not among the
    sources.  The spec gives a tool a name (the registry key), a handler
    from an optional string to a string and a description; the agent reads
    the attribute [name] and calls the method [run], which are the fields
    [tool_name] and [tool_run] here.  The handler is left arbitrary: it may
    act on the world and may raise.  A [Tool] instance is an ordinary
    object, hence truthy in [if tool:]. *)
Record Tool := {
  tool_name : string;
  tool_run : string -> Call string;
  tool_description : string
}.

(** The attributes of [Agent] set by [__init__].  [model] stands for the
    bound method [self.model.chat_completion]; the configuration values
    are typed as the code uses them (a message count, two flags). *)
Record Agent := {
  model : list Message -> Call string;
  tools : gmap string Tool;
  core_identity : string;
  long_memory : string;
  _max_long_memory : Z;
  _disable_long_memory : bool;
  short_memory : list Message;
  _max_short_memory : Z;
  _disable_short_memory : bool
}.

(** [self.tools = {tool.name: tool for tool in tools}]: a later tool of
    the same name replaces an earlier one. *)
Definition tools_dict (ts : list Tool) : gmap string Tool :=
  fold_left (fun d tool => <[tool_name tool := tool]> d) ts ∅.

Definition set_short_memory (v : list Message) (self : Agent) : Agent :=
  {| model := model self; tools := tools self;
     core_identity := core_identity self;
     long_memory := long_memory self;
     _max_long_memory := _max_long_memory self;
     _disable_long_memory := _disable_long_memory self;
     short_memory := v;
     _max_short_memory := _max_short_memory self;
     _disable_short_memory := _disable_short_memory self |}.

Definition set_long_memory (v : string) (self : Agent) : Agent :=
  {| model := model self; tools := tools self;
     core_identity := core_identity self;
     long_memory := v;
     _max_long_memory := _max_long_memory self;
     _disable_long_memory := _disable_long_memory self;
     short_memory := short_memory self;
     _max_short_memory := _max_short_memory self;
     _disable_short_memory := _disable_short_memory self |}.


(** *** Interpreter state and the monad of statements *)

(** [self]; the world; the prompts sent to the model so far (ghost); the
    lines printed; the content of the transcript file, [None] once it is
    removed. *)
Record St := {
  self : Agent;
  world : World;
  calls : list (list Message);
  stdout : list string;
  transcript : option string
}.

Definition with_self (f : Agent -> Agent) (st : St) : St :=
  {| self := f (self st); world := world st; calls := calls st;
     stdout := stdout st; transcript := transcript st |}.

Definition M (A : Type) : Type := St -> Result A * St.

Definition ret {A} (a : A) : M A := fun st => (Ok a, st).

Definition raise {A} (e : exn) : M A := fun st => (Raise e, st).

Definition bind {A B} (c : M A) (k : A -> M B) : M B :=
  fun st =>
    match c st with
    | (Ok a, st') => k a st'
    | (Raise e, st') => (Raise e, st')
    end.

Definition get_self : M Agent := fun st => (Ok (self st), st).

Definition modify_self (f : Agent -> Agent) : M unit :=
  fun st => (Ok tt, with_self f st).

(** A call into the world. *)
Definition lift {A} (c : Call A) : M A :=
  fun st =>
    let '(r, w) := c (world st) in
    (r, {| self := self st; world := w; calls := calls st;
           stdout := stdout st; transcript := transcript st |}).

(** [self.model.chat_completion(messages)]; the prompt is logged. *)
Definition call_model (messages : list Message) : M string :=
  fun st =>
    let '(r, w) := model (self st) messages (world st) in
    (r, {| self := self st; world := w;
           calls := calls st ++ [messages];
           stdout := stdout st; transcript := transcript st |}).

(** [print(line)] *)
Definition print (line : string) : M unit :=
  fun st =>
    (Ok tt, {| self := self st; world := world st; calls := calls st;
               stdout := stdout st ++ [line];
               transcript := transcript st |}).

End WithWorld.

Arguments Tool : clear implicits.
Arguments Agent : clear implicits.
Arguments St : clear implicits.
Arguments M : clear implicits.

Declare Scope py_scope.
Delimit Scope py_scope with py.
Notation "'let!' x := c 'in' k" := (bind c (fun x => k))
  (at level 10, x name, c at level 100, k at level 200) : py_scope.

Local Open Scope py_scope.

Section AgentMethods.
Context {World : Type}.
Abbreviation Agent := (Agent World).
Abbreviation St := (St World).
Abbreviation M := (M World).

(** *** [Agent._build_prompt] *)

Definition _build_prompt (a : Agent) (user_input : string) : list Message :=
  (* start with the core identity *)
  let messages := [Msg system (core_identity a)] in
  (* then include the long-term memory (if enabled) *)
  let messages :=
    if negb (_disable_long_memory a) && PyStr.truthy (long_memory a)
    then messages ++
         [Msg system ("Long-Term Memory:" +:+ PyStr.nl +:+ long_memory a)]
    else messages in
  (* next, include the short-term memory *)
  let messages :=
    match short_memory a with
    | [] => messages
    | _ :: _ =>
        fold_left
          (fun messages message => messages ++ [Msg system (render message)])
          (short_memory a)
          (messages ++ [Msg system "Recent Interactions:"])
    end in
  (* finally, add the current user input *)
  messages ++ [Msg user user_input].

(** *** [Agent._handle_memory] *)

(** The loop
    [while len(self.short_memory) > self._max_short_memory:
       popped_messages.append(self.short_memory.pop(0))]
    on the two lists it mutates.  [pop(0)] on an empty list raises
    [IndexError]; the lists are returned as they are when the loop is
    left, normally or not. *)
Fixpoint pop_loop (W : Z) (short popped : list Message)
  : Result unit * (list Message * list Message) :=
  if Z.of_nat (length short) >? W then
    match short with
    | [] => (Raise (Exn IndexError "pop from empty list"), (short, popped))
    | m :: short' => pop_loop W short' (popped ++ [m])
    end
  else (Ok tt, (short, popped)).

(** The f-string [instruction_content]. *)
Definition instruction_content
    (long_memory : string) (popped_messages short_memory : list Message)
  : string :=
  let popped_messages_text :=
    PyStr.join PyStr.nl (map render popped_messages) in
  let short_memory_text :=
    PyStr.join PyStr.nl (map render short_memory) in
  "Update the long-term memory summary for this agent." +:+ PyStr.nl +:+
  "Previous summary:" +:+ PyStr.nl +:+
  long_memory +:+ PyStr.nl +:+ PyStr.nl +:+
  "Messages that just dropped off short-term memory:" +:+ PyStr.nl +:+
  popped_messages_text +:+ PyStr.nl +:+ PyStr.nl +:+
  "Current short-term memory:" +:+ PyStr.nl +:+
  short_memory_text +:+ PyStr.nl +:+ PyStr.nl +:+
  "Please write a concise English summary that includes important context from all of the above, " +:+
  "without duplicating short-term memory. Respond in English only.".

Definition _handle_memory (user_input assistant_response : string)
  : M unit :=
  let! a := get_self in
  (* if self._disable_short_memory: pass *)
  let! _ := (if _disable_short_memory a then ret tt else ret tt) in
  let! _ := modify_self (fun a =>
    set_short_memory (short_memory a ++ [Msg user user_input]) a) in
  let! _ := modify_self (fun a =>
    set_short_memory
      (short_memory a ++ [Msg assistant assistant_response]) a) in
  let! a := get_self in
  let '(r, (short, popped_messages)) :=
    pop_loop (_max_short_memory a) (short_memory a) [] in
  let! _ := modify_self (set_short_memory short) in
  match r with
  | Raise e => raise e
  | Ok _ =>
      (* handle long memory update *)
      match popped_messages with
      | _ :: _ =>
          if negb (_disable_long_memory a) then
            let summary_prompt :=
              [Msg system
                 (instruction_content (long_memory a) popped_messages short)]
            in
            let! summary := call_model summary_prompt in
            modify_self (set_long_memory (PyStr.strip summary))
          else ret tt
      | [] => ret tt
      end
  end.

(** *** [Agent.chat_completion] *)

Definition chat_completion (user_input : string) : M string :=
  let! a := get_self in
  let messages := _build_prompt a user_input in
  (* call the model with the initial request and check for tool calls *)
  let! response := call_model messages in
  let match_ := Re.re_match tool_call_pattern (PyStr.strip response) in
  (* process the response *)
  let! result :=
    match match_ with
    | Some groups =>
        match groups with
        | [name; arg] =>
            match tools a !! name with
            | Some tool =>
                if PyStr.truthy arg then lift (tool_run tool arg)
                else lift (tool_run tool "")
            | None => ret ""
            end
        | _ => raise (Exn ValueError "wrong number of values to unpack")
        end
    | None => ret response
    end in
  let result := PyStr.strip result in
  (* update memory with the interaction *)
  let! _ := _handle_memory user_input result in
  ret result.

(** *** [Agent.run] *)

Definition file_header : string :=
  "Agent Transcript" +:+ PyStr.nl +:+ "================" +:+ PyStr.nl
  +:+ PyStr.nl.

Definition file_footer : string :=
  "================" +:+ PyStr.nl +:+ PyStr.nl.

(** [with open(self.transcript_file, "w") as f: f.write(s)] *)
Definition write_transcript (s : string) : M unit :=
  fun st =>
    (Ok tt, {| self := self st; world := world st; calls := calls st;
               stdout := stdout st; transcript := Some s |}).

(** [with open(self.transcript_file, "a") as f: f.write(s)] *)
Definition append_transcript (s : string) : M unit :=
  fun st =>
    (Ok tt, {| self := self st; world := world st; calls := calls st;
               stdout := stdout st;
               transcript := Some (default "" (transcript st) +:+ s) |}).

(** [os.remove(self.transcript_file)] *)
Definition remove_transcript : M unit :=
  fun st =>
    (Ok tt, {| self := self st; world := world st; calls := calls st;
               stdout := stdout st; transcript := None |}).

Definition read_transcript : M string :=
  fun st => (Ok (default "" (transcript st)), st).

(** The interaction loop of [run], on the lines that [input] will return;
    [input] raises [EOFError] once they are used up. *)
Fixpoint interaction_loop (stdin : list string) : M unit :=
  match stdin with
  | [] => raise (Exn EOFError "EOF when reading a line")
  | line :: stdin' =>
      let user_input := PyStr.strip line in
      if bool_decide (PyStr.lower user_input ∈ ["exit"; "quit"]) then
        print "Goodbye!"
      else
        let! result := chat_completion user_input in
        let! _ := print ("Agent: " +:+ result) in
        (* log the interaction to the transcript file *)
        let! _ := append_transcript
          ("You: " +:+ user_input +:+ PyStr.nl +:+ PyStr.nl) in
        let! _ := append_transcript
          ("Agent: " +:+ result +:+ PyStr.nl +:+ PyStr.nl) in
        interaction_loop stdin'
  end.

Definition run (stdin : list string) : M unit :=
  let! _ := print "Type 'exit' or 'quit' to end the chat." in
  (* setup the transcript file *)
  let! _ := write_transcript file_header in
  let! _ := interaction_loop stdin in
  (* close the transcript file, deleting if empty *)
  let! content := read_transcript in
  if bool_decide (content = file_header) then remove_transcript
  else append_transcript file_footer.

End AgentMethods.

(** *** [Agent.__init__] *)

Section Construction.
Context {World : Type}.

(** The keys of [config.yaml] read by [Agent.__init__], each present or
    absent, with values of the types the agent uses them at. *)
Record Config := {
  LONG_MEMORY_SIZE : option Z;
  DISABLE_LONG_MEMORY : option bool;
  SHORT_MEMORY_SIZE : option Z;
  DISABLE_SHORT_MEMORY : option bool
}.

(** [Agent.__init__(tools, identity)] on the mapping read from the file.
    [model] is the object bound to [self.model] (a [ModelInterface], or the
    double the tests put in its place); the transcript file name, made from
    the clock, is left out. *)
Definition __init__ (model : list Message -> Call (World:=World) string)
    (tools : list (Tool World)) (identity : string) (config : Config)
  : Agent World :=
  {| model := model;
     tools := tools_dict tools;
     core_identity := identity;
     long_memory := "";
     _max_long_memory := default 5096 (LONG_MEMORY_SIZE config);
     _disable_long_memory := default true (DISABLE_LONG_MEMORY config);
     short_memory := [];
     _max_short_memory := default 20 (SHORT_MEMORY_SIZE config);
     _disable_short_memory := default false (DISABLE_SHORT_MEMORY config) |}.

End Construction.

(** ** The model client *)

(** *** [NexaClient] ([src/servers/nexa.py]) *)

Module NexaClient.
Section WithNetwork.
Context {World : Type}.

(** The JSON body built by [chat] (the float [temperature] is left
    out). *)
Record Request := {
  req_model : string;
  req_messages : list Message;
  req_max_tokens : Z;
  req_stream : bool
}.

(** The JSON value found under [content]: a string, or a value of another
    type ([null], a number, a list, ...), of which only the name of the
    Python type matters ([NoneType], [int], ...). *)
Inductive Content :=
| Text (s : string)
| NotText (type_name : string).

(** The object returned by [requests.post]: its status code, and the
    outcome of evaluating
    [chat_response.json()['choices'][0]['message']['content']] on it (the
    value under [content], or the exception raised by the JSON decoder or
    by one of the subscripts). *)
Record Response := {
  status_code : Z;
  completion : Result Content
}.

(** [requests.post(url, headers=..., json=data)]: raises when the
    endpoint cannot be reached. *)
Variable requests_post : string -> Request -> World -> Result Response * World.

Record t := { chat_url : string; api_key : string }.

(** The dict [data] of [chat]. *)
Definition data (messages : list Message) : Request :=
  {| req_model := "NexaAI/Llama3.2-3B-NPU-Turbo";
     req_messages := messages;
     req_max_tokens := 256;
     req_stream := false |}.

(** [chat] returns the value under [content] as it is, a string or not. *)
Definition chat (self : t) (messages : list Message)
  : World -> Result Content * World :=
  fun w =>
    match requests_post (chat_url self) (data messages) w with
    | (Raise e, w') => (Raise e, w')
    | (Ok chat_response, w') =>
        (* try: return chat_response.json()[...] *)
        match completion chat_response with
        | Ok value => (Ok value, w')
        | Raise e =>
            if is_ValueError e then
              (* except ValueError *)
              (Ok (Text "Response is not valid JSON"), w')
            else
              (* except Exception as e *)
              (Ok (Text ("Chat request failed. Error: " +:+ exn_str e)), w')
        end
    end.

End WithNetwork.
End NexaClient.

(** *** [ModelInterface] ([src/model.py]) *)

Module ModelInterface.
Section WithWorld.
Context {World : Type}.

(** [client] is the object built by [_setup_client]; of the three client
    classes only [NexaClient] is among the sources, so the client is
    represented by its method [chat]. *)
Record t := {
  model_provider : option string;
  client_chat : list Message -> World -> Result string * World
}.

Definition not_implemented (what : string) : exn :=
  Exn NotImplementedError (what +:+ " streaming chat is not implemented yet.").

Definition chat_completion (self : t) (messages : list Message)
    (stream : bool) : World -> Result string * World :=
  fun w =>
    match model_provider self with
    | None =>
        (Raise (Exn ValueError "MODEL_PROVIDER is not set in config.yaml"), w)
    | Some provider =>
        if negb (PyStr.truthy provider) then
          (Raise (Exn ValueError "MODEL_PROVIDER is not set in config.yaml"),
           w)
        else if bool_decide (PyStr.lower provider = "anythingllm") then
          if stream then (Raise (not_implemented "AnythingLLM"), w)
          else client_chat self messages w
        else if bool_decide (PyStr.lower provider = "lmstudio") then
          if stream then (Raise (not_implemented "LM Studio"), w)
          else client_chat self messages w
        else if bool_decide (PyStr.lower provider = "nexa") then
          if stream then (Raise (not_implemented "Nexa"), w)
          else client_chat self messages w
        else
          (Raise (Exn ValueError
                    ("Unsupported MODEL_PROVIDER: " +:+ provider)), w)
    end.

(** A client object, represented by its method [chat]. *)
Definition Client : Type := list Message -> World -> Result string * World.

(** [_setup_client].  The functions [setup_anythingllm_client],
    [setup_lm_studio_client] and [setup_nexa_client] are imported from
    [src/servers]; they build a client from the configuration mapping or
    raise, and are taken as parameters, the mapping as an abstract type.
    [model_provider] is the attribute set by [__init__] from the key
    [MODEL_PROVIDER] ([None] when the key is absent). *)
Definition _setup_client {Config : Type}
    (setup_anythingllm_client setup_lm_studio_client setup_nexa_client :
       Config -> Result Client)
    (model_provider : option string) (config : Config) : Result Client :=
  match model_provider with
  | None => Raise (Exn ValueError "MODEL_PROVIDER is not set in config.yaml")
  | Some provider =>
      if negb (PyStr.truthy provider) then
        Raise (Exn ValueError "MODEL_PROVIDER is not set in config.yaml")
      else if bool_decide (PyStr.lower provider = "anythingllm") then
        setup_anythingllm_client config
      else if bool_decide (PyStr.lower provider = "lmstudio") then
        setup_lm_studio_client config
      else if bool_decide (PyStr.lower provider = "nexa") then
        setup_nexa_client config
      else
        Raise (Exn ValueError ("Unsupported MODEL_PROVIDER: " +:+ provider))
  end.

(** [ModelInterface.__init__]: the provider is read from the mapping, then
    the client is set up. *)
Definition __init__ {Config : Type}
    (setup_anythingllm_client setup_lm_studio_client setup_nexa_client :
       Config -> Result Client)
    (MODEL_PROVIDER : option string) (config : Config) : Result t :=
  match _setup_client setup_anythingllm_client setup_lm_studio_client
          setup_nexa_client MODEL_PROVIDER config with
  | Ok client =>
      Ok {| model_provider := MODEL_PROVIDER; client_chat := client |}
  | Raise e => Raise e
  end.

End WithWorld.
End ModelInterface.

(** The first thing the agent does with the value a model call returns is
    [response.strip()] in [chat_completion] and [summary.strip()] in
    [_handle_memory]; on a value that is not a string this raises
    [AttributeError].  From the client on, replies are strings in this
    model; so the exception is raised here, where the value leaves the
    client: the call has been made and nothing else has happened when it
    is raised, as in the code. *)
Definition as_text {World : Type}
    (call : World -> Result NexaClient.Content * World)
  : World -> Result string * World :=
  fun w =>
    match call w with
    | (Ok (NexaClient.Text s), w') => (Ok s, w')
    | (Ok (NexaClient.NotText type_name), w') =>
        (Raise (Exn (OtherException "AttributeError")
                  ("'" +:+ type_name
                   +:+ "' object has no attribute 'strip'")), w')
    | (Raise e, w') => (Raise e, w')
    end.

(** The model of an agent configured with [MODEL_PROVIDER: nexa]: the bound
    method [self.model.chat_completion] with its default arguments. *)
Definition nexa_model {World : Type}
    (requests_post :
       string -> NexaClient.Request -> World ->
       Result NexaClient.Response * World)
    (provider : string) (client : NexaClient.t)
  : list Message -> World -> Result string * World :=
  fun messages =>
    ModelInterface.chat_completion
      {| ModelInterface.model_provider := Some provider;
         ModelInterface.client_chat :=
           fun messages =>
             as_text (NexaClient.chat requests_post client messages) |}
      messages false.

(** ** Vocabulary of the statements *)

Section Vocabulary.
Context {World : Type}.
Implicit Types (st : St World) (u r : string).

(** Number of entries the loop removes from a window of [len] entries
    when it can: the excess over [W]. *)
Definition excess (W : Z) (len : nat) : nat := Z.to_nat (Z.of_nat len - W).

(** The window invariant: at most [_max_short_memory] entries. *)
Definition bounded st : Prop :=
  Z.of_nat (length (short_memory (self st))) <= _max_short_memory (self st).

(** The window [_handle_memory] hands to the eviction loop: the old
    window with the user message and then the assistant message at the
    back. *)
Definition appended st u r : list Message :=
  (short_memory (self st) ++ [Msg user u]) ++ [Msg assistant r].

(** The single prompt of a summarization request. *)
Definition summary_prompt (a : Agent World) (popped short : list Message)
  : list Message :=
  [Msg system (instruction_content (long_memory a) popped short)].

(** The state once the model has answered the prompt, leaving the world
    as [w]. *)
Definition after_model st (prompt : list Message) (w : World) : St World :=
  {| self := self st; world := w; calls := calls st ++ [prompt];
     stdout := stdout st; transcript := transcript st |}.

Definition set_world (w : World) st : St World :=
  {| self := self st; world := w; calls := calls st;
     stdout := stdout st; transcript := transcript st |}.

(** The tail of [chat_completion] once the stripped [result] is known:
    update the memory and return [result]. *)
Definition finish u (result : string) : M World string :=
  let! _ := _handle_memory u result in
  ret result.

(** [t] occurs in [s]. *)
Definition contains (s t : string) : Prop :=
  exists before after, s = before +:+ t +:+ after.

(** The providers [ModelInterface] knows, whatever the letter case. *)
Definition supported (provider : string) : Prop :=
  PyStr.lower provider ∈ ["anythingllm"; "lmstudio"; "nexa"].

(** The text [NexaClient.chat] returns when the payload of a response
    cannot be read. *)
Definition error_text (e : exn) : string :=
  if is_ValueError e then "Response is not valid JSON"
  else "Chat request failed. Error: " +:+ exn_str e.

(** The test of [run] for leaving the loop. *)
Definition is_exit (line : string) : Prop :=
  PyStr.lower (PyStr.strip line) ∈ ["exit"; "quit"].

(** What one turn adds to the transcript file. *)
Definition turn_block (turn : string * string) : string :=
  ("You: " +:+ fst turn +:+ PyStr.nl +:+ PyStr.nl)
  +:+ ("Agent: " +:+ snd turn +:+ PyStr.nl +:+ PyStr.nl).

(** The text of a call [name(arg)]. *)
Definition call_text (name arg : string) : string :=
  name +:+ "(" +:+ arg +:+ ")".

(** A non-empty run of word characters. *)
Definition identifier (name : string) : Prop :=
  name <> "" /\
  Forall (fun c => PyStr.isword c = true) (list_ascii_of_string name).

(** The blocks of a sequence of turns, in order. *)
Definition transcript_body (turns : list (string * string)) : string :=
  foldr (fun turn body => turn_block turn +:+ body) "" turns.

(** The state with what was printed and the transcript file replaced. *)
Definition set_io (out : list string) (file : option string) st : St World :=
  {| self := self st; world := world st; calls := calls st;
     stdout := out; transcript := file |}.

(** The turns taken for a list of input lines: [chat_completion] on each
    trimmed line in order, each from the state the one before has left;
    the result pairs every input with its answer. *)
Fixpoint take_turns (lines : list string) st
  : Result (list (string * string)) * St World :=
  match lines with
  | [] => (Ok [], st)
  | line :: lines' =>
      match chat_completion (PyStr.strip line) st with
      | (Ok answer, st1) =>
          match take_turns lines' st1 with
          | (Ok turns, st2) => (Ok ((PyStr.strip line, answer) :: turns), st2)
          | (Raise e, st2) => (Raise e, st2)
          end
      | (Raise e, st1) => (Raise e, st1)
      end
  end.

(** The window as a sequence of whole turns. *)
Definition turns_window (turns : list (string * string)) : list Message :=
  flat_map (fun turn => [Msg user (fst turn); Msg assistant (snd turn)]) turns.

(** The window holds the end of a sequence of whole turns. *)
Definition paired (window : list Message) : Prop :=
  exists turns, window `suffix_of` turns_window turns.

(** A prompt of the primary call: it ends with the user message. *)
Definition primary (prompt : list Message) : Prop :=
  exists pre user_input, prompt = pre ++ [Msg user user_input].

End Vocabulary.

(** ** Test fixtures

    The doubles of [tests/core/test_agent.py]: a model that answers with a
    fixed text and the tool [Echo]. *)

Module Fixtures.

(** [DummyModel], answering [reply] to every prompt. *)
Definition DummyModel (reply : string)
  : list Message -> Call (World:=unit) string :=
  fun _ w => (Ok reply, w).

(** [dummy_tool_func]: [f"Echo: {arg}" if arg else "Echo:"] *)
Definition dummy_tool_func (arg : string) : Call (World:=unit) string :=
  fun w => (Ok (if PyStr.truthy arg then "Echo: " +:+ arg else "Echo:"), w).

Definition Echo : Tool unit :=
  {| tool_name := "Echo"; tool_run := dummy_tool_func;
     tool_description := "Echoes input" |}.

(** [Agent(tools, "Test agent identity")] with the given model and
    configuration values. *)
Definition agent (reply : string) (W : Z) (disable_long disable_short : bool)
  : Agent unit :=
  {| model := DummyModel reply;
     tools := tools_dict [Echo];
     core_identity := "Test agent identity";
     long_memory := "";
     _max_long_memory := 5096;
     _disable_long_memory := disable_long;
     short_memory := [];
     _max_short_memory := W;
     _disable_short_memory := disable_short |}.

Definition start (a : Agent unit) : St unit :=
  {| self := a; world := tt; calls := []; stdout := [];
     transcript := None |}.

(** An agent configured with [MODEL_PROVIDER: nexa] while nothing listens
    at the URL: [requests.post] raises [ConnectionError]. *)
Definition refused : exn := Exn ConnectionError "Connection refused".

Definition unreachable
  : string -> NexaClient.Request -> unit -> Result NexaClient.Response * unit :=
  fun _ _ w => (Raise refused, w).

Definition nexa_client : NexaClient.t :=
  {| NexaClient.chat_url := "http://127.0.0.1:18181/v1/chat/completions";
     NexaClient.api_key := "nexa" |}.

Definition nexa_agent : Agent unit :=
  {| model := nexa_model unreachable "nexa" nexa_client;
     tools := tools_dict [Echo];
     core_identity := "Test agent identity";
     long_memory := "";
     _max_long_memory := 5096;
     _disable_long_memory := true;
     short_memory := [];
     _max_short_memory := 20;
     _disable_short_memory := false |}.

(** A state whose window is full: one whole turn under a bound of two. *)
Definition full : St unit :=
  with_self
    (set_short_memory [Msg user "first"; Msg assistant "Hello"])
    (start (agent "Hello" 2 true false)).

(** An endpoint that answers with a payload lacking the key [choices]. *)
Definition no_choices : exn := Exn KeyError "'choices'".

Definition garbled
  : string -> NexaClient.Request -> unit -> Result NexaClient.Response * unit :=
  fun _ _ w =>
    (Ok {| NexaClient.status_code := 500;
           NexaClient.completion := Raise no_choices |}, w).

Definition garbled_agent : Agent unit :=
  {| model := nexa_model garbled "Nexa" nexa_client;
     tools := tools_dict [Echo];
     core_identity := "Test agent identity";
     long_memory := "";
     _max_long_memory := 5096;
     _disable_long_memory := true;
     short_memory := [];
     _max_short_memory := 20;
     _disable_short_memory := false |}.

(** An endpoint that answers with [null] under [content]. *)
Definition null_content
  : string -> NexaClient.Request -> unit -> Result NexaClient.Response * unit :=
  fun _ _ w =>
    (Ok {| NexaClient.status_code := 200;
           NexaClient.completion := Ok (NexaClient.NotText "NoneType") |},
     w).

Definition null_agent : Agent unit :=
  {| model := nexa_model null_content "nexa" nexa_client;
     tools := tools_dict [Echo];
     core_identity := "Test agent identity";
     long_memory := "";
     _max_long_memory := 5096;
     _disable_long_memory := true;
     short_memory := [];
     _max_short_memory := 20;
     _disable_short_memory := false |}.

(** A client set-up that succeeds with the fixed-answer client. *)
Definition setup_dummy
  : unit -> Result (ModelInterface.Client (World:=unit)) :=
  fun _ => Ok (DummyModel "Hello").

End Fixtures.

(** * Properties *)

(** ** The eviction loop *)

Section Eviction.

Lemma pop_loop_closed_form W short popped :
  pop_loop W short popped =
    (if W <? 0 then Raise (Exn IndexError "pop from empty list") else Ok tt,
     (drop (excess W (length short)) short,
      popped ++ take (excess W (length short)) short)).
Proof.
  revert popped.
  induction short as [|m short IH]; intros popped; cbn [pop_loop].
  - unfold excess. cbn [length].
    destruct (Z.gtb_spec (Z.of_nat 0) W) as [Hgt|Hle].
    + rewrite (proj2 (Z.ltb_lt W 0)) by lia.
      rewrite drop_nil, take_nil, app_nil_r. reflexivity.
    + rewrite (proj2 (Z.ltb_ge W 0)) by lia.
      rewrite drop_nil, take_nil, app_nil_r. reflexivity.
  - destruct (Z.gtb_spec (Z.of_nat (length (m :: short))) W) as [Hgt|Hle].
    + rewrite IH. cbn [length] in Hgt.
      replace (excess W (length (m :: short)))
        with (S (excess W (length short)))
        by (unfold excess; cbn [length]; lia).
      cbn [drop take]. rewrite <- app_assoc. reflexivity.
    + replace (excess W (length (m :: short))) with 0%nat
        by (unfold excess; lia).
      rewrite (proj2 (Z.ltb_ge W 0)) by lia.
      cbn [drop take]. rewrite app_nil_r. reflexivity.
Qed.

Lemma pop_loop_partition W short popped r short' popped' :
  pop_loop W short popped = (r, (short', popped')) ->
  popped ++ short = popped' ++ short'.
Proof.
  rewrite pop_loop_closed_form. intros H. inversion H; subst.
  rewrite <- app_assoc, take_drop. reflexivity.
Qed.

Lemma pop_loop_bound W short popped short' popped' :
  pop_loop W short popped = (Ok tt, (short', popped')) ->
  Z.of_nat (length short') <= W.
Proof.
  rewrite pop_loop_closed_form. intros H.
  destruct (Z.ltb_spec W 0) as [Hneg|Hpos]; [discriminate|].
  inversion H; subst. rewrite length_drop. unfold excess. lia.
Qed.

End Eviction.

(** ** The memory-update operation *)

Section Memory.
Context {World : Type}.
Implicit Types (st : St World) (u r : string).

(** [_handle_memory], one case per way out of the function. *)
Lemma _handle_memory_cases u r st :
  _handle_memory u r st =
    let a := self st in
    let '(res, (short, popped)) :=
      pop_loop (_max_short_memory a) (appended st u r) [] in
    let st1 := with_self (set_short_memory short) st in
    match res with
    | Raise e => (Raise e, st1)
    | Ok _ =>
        match popped with
        | [] => (Ok tt, st1)
        | _ :: _ =>
            if _disable_long_memory a then (Ok tt, st1)
            else
              bind (call_model (summary_prompt a popped short))
                   (fun summary =>
                      modify_self (set_long_memory (PyStr.strip summary)))
                   st1
        end
    end.
Proof.
  unfold _handle_memory, appended, summary_prompt.
  unfold bind at 1. cbn [get_self].
  replace (if _disable_short_memory (self st) then ret tt else ret tt)
    with (@ret World unit tt)
    by (destruct (_disable_short_memory _); reflexivity).
  cbn.
  destruct (pop_loop _ _ _) as [res [short popped]].
  destruct res as [[]|e]; cbn; [|reflexivity].
  destruct popped as [|m popped]; [reflexivity|].
  destruct (_disable_long_memory (self st)); reflexivity.
Qed.

End Memory.

(** Case analysis on the ways out of [_handle_memory], as listed by
    [_handle_memory_cases]: the loop raised; nothing was popped;
    summarization is disabled; the model answered; the model raised. *)
Ltac each_way_out tac :=
  rewrite ?_handle_memory_cases; cbn zeta;
  destruct (pop_loop _ _ _) as [[[]|?] [? [|? ?]]];
  try solve [tac];
  match goal with
  | |- context [_disable_long_memory ?a] =>
      destruct (_disable_long_memory a) eqn:?
  end;
  try solve [tac];
  unfold bind, call_model, summary_prompt; cbn;
  match goal with
  | |- context [model ?a ?p ?w] => destruct (model a p w) as [[?|?] ?]
  end;
  solve [tac].

Section MemoryFrame.
Context {World : Type}.
Implicit Types (st : St World) (u r : string).

(** The configuration and the model are never written by
    [_handle_memory]. *)
Lemma _handle_memory_config u r st :
  let a' := self (snd (_handle_memory u r st)) in
  _max_short_memory a' = _max_short_memory (self st) /\
  _disable_long_memory a' = _disable_long_memory (self st) /\
  _disable_short_memory a' = _disable_short_memory (self st) /\
  tools a' = tools (self st) /\
  model a' = model (self st) /\
  core_identity a' = core_identity (self st).
Proof. each_way_out ltac:(cbn; tauto). Qed.

(** Whatever the way out, the window left behind is the one the eviction
    loop left. *)
Lemma _handle_memory_window u r st :
  short_memory (self (snd (_handle_memory u r st))) =
    fst (snd (pop_loop (_max_short_memory (self st)) (appended st u r) [])).
Proof. each_way_out ltac:(reflexivity). Qed.

(** A normal return means the eviction loop was left normally. *)
Lemma _handle_memory_ok_loop u r st st' :
  _handle_memory u r st = (Ok tt, st') ->
  fst (pop_loop (_max_short_memory (self st)) (appended st u r) []) = Ok tt.
Proof.
  rewrite _handle_memory_cases. cbn zeta.
  destruct (pop_loop _ _ _) as [res [short popped]].
  destruct res as [[]|e]; [reflexivity|]. intros H. inversion H.
Qed.

Lemma _handle_memory_bound u r st st' :
  _handle_memory u r st = (Ok tt, st') ->
  Z.of_nat (length (short_memory (self st'))) <= _max_short_memory (self st).
Proof.
  intros H.
  pose proof (_handle_memory_window u r st) as Hw.
  pose proof (_handle_memory_ok_loop u r st st' H) as Hok.
  rewrite H in Hw. cbn [snd] in Hw. rewrite Hw.
  destruct (pop_loop _ _ _) as [res [short popped]] eqn:Hloop.
  cbn in Hok. subst res. cbn.
  eapply pop_loop_bound. exact Hloop.
Qed.

(** [_handle_memory] returns whenever the bound is a count and the model
    answers the summarization request, if one is made. *)
Lemma _handle_memory_returns u r st :
  0 <= _max_short_memory (self st) ->
  (forall prompt, exists summary w,
      model (self st) prompt (world st) = (Ok summary, w)) ->
  exists st', _handle_memory u r st = (Ok tt, st').
Proof.
  intros HW Hmodel. rewrite _handle_memory_cases. cbn zeta.
  rewrite pop_loop_closed_form.
  rewrite (proj2 (Z.ltb_ge _ 0)) by lia.
  destruct (_ ++ take _ _) as [|m popped]; [eauto|].
  destruct (_disable_long_memory (self st)); [eauto|].
  unfold bind, call_model. cbn.
  match goal with |- context [model _ ?p _] =>
    destruct (Hmodel p) as (summary & w & ->) end.
  cbn. eauto.
Qed.

End MemoryFrame.

Section MemoryProperties.
Context {World : Type}.
Implicit Types (st : St World) (u r : string).

(** C4.  Window bound: whenever a call to [_handle_memory] returns, from
    any state (hence after any sequence of turns) and for any configured
    maximum [W = _max_short_memory], the window holds at most [W]
    messages, and [W] itself is left as configured. *)
Theorem window_length_at_most_W u r st st' :
  _handle_memory u r st = (Ok tt, st') ->
  Z.of_nat (length (short_memory (self st'))) <= _max_short_memory (self st')
  /\ _max_short_memory (self st') = _max_short_memory (self st).
Proof.
  intros H.
  pose proof (_handle_memory_config u r st) as Hc.
  rewrite H in Hc. cbn [snd] in Hc. destruct Hc as [HW _].
  split; [|exact HW].
  rewrite HW. eapply _handle_memory_bound. exact H.
Qed.

(** C5.  Strict FIFO eviction: [_handle_memory] puts the user message and
    then the assistant message at the back of the window; the loop then
    takes the excess over [W] from the front, one entry at a time, so that
    the entries popped are the first [n] of the window in insertion order
    (collected in that order) and the window left is the rest.  The
    summarization request, when one is sent, is built from exactly these
    two lists. *)
Theorem eviction_is_fifo u r st :
  let W := _max_short_memory (self st) in
  let window := short_memory (self st) ++ [Msg user u; Msg assistant r] in
  let n := excess W (length window) in
  let st' := snd (_handle_memory u r st) in
  pop_loop W window [] =
    (if W <? 0 then Raise (Exn IndexError "pop from empty list") else Ok tt,
     (drop n window, take n window))
  /\ short_memory (self st') = drop n window
  /\ window = take n window ++ short_memory (self st')
  /\ (forall prompt, calls st' = calls st ++ [prompt] ->
      prompt = summary_prompt (self st) (take n window) (drop n window)).
Proof.
  intros W window n st'.
  assert (Hwin : appended st u r = window).
  { unfold appended, window. rewrite <- app_assoc. reflexivity. }
  assert (Hloop : pop_loop W window [] =
    (if W <? 0 then Raise (Exn IndexError "pop from empty list") else Ok tt,
     (drop n window, take n window))).
  { rewrite pop_loop_closed_form. reflexivity. }
  assert (Hshort : short_memory (self st') = drop n window).
  { unfold st'. rewrite _handle_memory_window, Hwin. fold W.
    rewrite Hloop. reflexivity. }
  split; [exact Hloop|]. split; [exact Hshort|].
  split; [rewrite Hshort, take_drop; reflexivity|].
  intros prompt Hcalls. unfold st' in Hcalls.
  rewrite _handle_memory_cases in Hcalls. cbn zeta in Hcalls.
  rewrite Hwin in Hcalls. fold W in Hcalls. rewrite Hloop in Hcalls.
  assert (Hfresh : calls st <> calls st ++ [prompt]).
  { intros Heq. apply (f_equal length) in Heq.
    rewrite length_app in Heq. cbn in Heq. lia. }
  destruct (W <? 0); [cbn in Hcalls; congruence|].
  destruct (take n window) as [|m popped] eqn:Htake;
    [cbn in Hcalls; congruence|].
  destruct (_disable_long_memory (self st)); [cbn in Hcalls; congruence|].
  unfold bind, call_model in Hcalls. cbn in Hcalls.
  destruct (model _ _ _) as [[summary|e] w]; cbn in Hcalls;
    apply app_inj_tail in Hcalls; destruct Hcalls as [_ Hp];
    symmetry; exact Hp.
Qed.

(** C7.  With long-term summarization disabled, a call to
    [_handle_memory] leaves the summary ([long_memory]) as it was and
    sends nothing to the model, whether or not entries were evicted and
    whatever the way out of the call. *)
Theorem summary_untouched_when_disabled u r st :
  _disable_long_memory (self st) = true ->
  let st' := snd (_handle_memory u r st) in
  long_memory (self st') = long_memory (self st) /\ calls st' = calls st.
Proof.
  intros Hd. cbn zeta.
  rewrite _handle_memory_cases. cbn zeta. rewrite Hd.
  destruct (pop_loop _ _ _) as [res [short popped]].
  destruct res as [[]|e]; [|split; reflexivity].
  destruct popped as [|m popped]; split; reflexivity.
Qed.


End MemoryProperties.

(** ** Prompt assembly *)

Section Prompt.
Context {World : Type}.

Lemma fold_left_append {A B} (f : B -> A) (l : list B) (init : list A) :
  fold_left (fun acc x => acc ++ [f x]) l init = init ++ map f l.
Proof.
  revert init. induction l as [|x l IH]; intros init; cbn.
  - rewrite app_nil_r. reflexivity.
  - rewrite IH, <- app_assoc. reflexivity.
Qed.

Lemma truthy_eqb (s : string) : PyStr.truthy s = negb (String.eqb s "").
Proof. destruct s; reflexivity. Qed.

(** The summarization request holds, in this order, the previous summary,
    the popped entries and the window left, each entry rendered on a line
    of its own. *)
Lemma instruction_content_parts lm (popped short : list Message) :
  exists pre mid1 mid2 post,
    instruction_content lm popped short =
      pre +:+ lm +:+ mid1 +:+ PyStr.join PyStr.nl (map render popped)
          +:+ mid2 +:+ PyStr.join PyStr.nl (map render short) +:+ post.
Proof.
  exists ("Update the long-term memory summary for this agent." +:+ PyStr.nl
          +:+ "Previous summary:" +:+ PyStr.nl).
  exists (PyStr.nl +:+ PyStr.nl
          +:+ "Messages that just dropped off short-term memory:"
          +:+ PyStr.nl).
  exists (PyStr.nl +:+ PyStr.nl +:+ "Current short-term memory:" +:+ PyStr.nl).
  eexists. unfold instruction_content. reflexivity.
Qed.

(** C9.  Prompt order: the prompt of the primary call is the system
    identity, then the long-term summary if long-term memory is enabled
    and the summary is not empty, then the block of window contents (a
    header and one line per window entry, in window order) if the window
    is not empty, then the new user message, and nothing else. *)
Theorem prompt_order (a : Agent World) (user_input : string) :
  let identity := [Msg system (core_identity a)] in
  let summary :=
    if _disable_long_memory a then []
    else if String.eqb (long_memory a) "" then []
    else [Msg system ("Long-Term Memory:" +:+ PyStr.nl +:+ long_memory a)] in
  let window :=
    if Nat.eqb (length (short_memory a)) 0 then []
    else Msg system "Recent Interactions:"
         :: map (fun m => Msg system (render m)) (short_memory a) in
  _build_prompt a user_input =
    identity ++ summary ++ window ++ [Msg user user_input].
Proof.
  cbn zeta. unfold _build_prompt.
  rewrite truthy_eqb.
  destruct (short_memory a) as [|m window] eqn:Hw.
  - destruct (_disable_long_memory a), (String.eqb (long_memory a) "");
      reflexivity.
  - rewrite fold_left_append. cbn [length Nat.eqb].
    destruct (_disable_long_memory a), (String.eqb (long_memory a) "");
      cbn [negb andb]; rewrite <- ?app_assoc; reflexivity.
Qed.

End Prompt.

(** ** Reply parsing and dispatch *)

Section Parser.

Lemma star_some {R} k s (cont : list ascii -> option R) r :
  Re.star k s cont = Some r -> exists s', cont s' = Some r.
Proof.
  induction s as [|c s IH]; cbn; intros H.
  - eauto.
  - destruct (Re.in_class k c); [|eauto].
    destruct (Re.star k s cont) eqn:Hs; [|eauto].
    inversion H; subst. apply IH. reflexivity.
Qed.

(** A match of the tool pattern always has its two groups, so the
    unpacking [name, arg = match.groups()] cannot fail. *)
Lemma tool_call_groups (s : string) groups :
  Re.re_match tool_call_pattern s = Some groups ->
  exists name arg, groups = [name; arg].
Proof.
  unfold Re.re_match, tool_call_pattern. cbn [Re.rmatch fst snd].
  rewrite Nat.eqb_refl.
  destruct (list_ascii_of_string s) as [|c inp]; [discriminate|].
  destruct (Re.in_class Re.CWord c); [|discriminate].
  intros H. apply star_some in H. destruct H as [s1 H].
  cbn [fst snd] in H.
  destruct s1 as [|c1 s1]; [discriminate|].
  destruct (Ascii.eqb "(" c1); [|discriminate].
  apply star_some in H. destruct H as [s2 H].
  cbn [fst snd] in H.
  destruct s2 as [|c2 s2]; [discriminate|].
  destruct (Ascii.eqb ")" c2); [|discriminate].
  destruct s2 as [|c3 [|c4 s2]]; cbn in H.
  - inversion H. eauto.
  - destruct (Ascii.eqb c3 _); inversion H. eauto.
  - discriminate.
Qed.

End Parser.

Section Dispatch.
Context {World : Type}.
Implicit Types (st : St World) (u : string).

(** [chat_completion], one case per path through the function. *)
Lemma chat_completion_cases u st :
  chat_completion u st =
    let prompt := _build_prompt (self st) u in
    match model (self st) prompt (world st) with
    | (Raise e, w) => (Raise e, after_model st prompt w)
    | (Ok response, w) =>
        let st1 := after_model st prompt w in
        match Re.re_match tool_call_pattern (PyStr.strip response) with
        | Some groups =>
            match groups with
            | [name; arg] =>
                match tools (self st) !! name with
                | Some tool =>
                    match tool_run tool arg w with
                    | (Ok v, w2) => finish u (PyStr.strip v) (set_world w2 st1)
                    | (Raise e, w2) => (Raise e, set_world w2 st1)
                    end
                | None => finish u "" st1
                end
            | _ =>
                (Raise (Exn ValueError "wrong number of values to unpack"),
                 st1)
            end
        | None => finish u (PyStr.strip response) st1
        end
    end.
Proof.
  unfold chat_completion, finish, after_model, set_world.
  unfold bind at 1. cbn [get_self].
  unfold bind at 1. unfold call_model at 1.
  destruct (model _ _ _) as [[response|e] w]; [|reflexivity].
  cbn zeta.
  destruct (Re.re_match _ _) as [groups|]; [|reflexivity].
  destruct groups as [|name [|arg [|x groups]]]; try reflexivity.
  destruct (tools (self st) !! name) as [tool|]; [|reflexivity].
  unfold bind at 1.
  assert (Harg : (if PyStr.truthy arg then lift (tool_run tool arg)
                  else lift (tool_run tool "")) = lift (tool_run tool arg)).
  { destruct arg; reflexivity. }
  rewrite Harg. unfold lift. cbn [world self calls stdout transcript].
  destruct (tool_run tool arg w) as [[v|e] w2]; reflexivity.
Qed.

End Dispatch.

Section DispatchProperties.
Context {World : Type}.
Implicit Types (st : St World) (u : string).

Lemma finish_ok u result st answer st' :
  finish u result st = (Ok answer, st') ->
  answer = result /\ _handle_memory u result st = (Ok tt, st').
Proof.
  unfold finish, bind, ret.
  destruct (_handle_memory u result st) as [[[]|e] st1]; intros H;
    inversion H; subst; split; reflexivity.
Qed.

(** A turn that completes went through [finish], entered with [self] as
    it was at the start of the turn. *)
Lemma chat_completion_ok_finish u st answer st' :
  chat_completion u st = (Ok answer, st') ->
  exists result st1,
    self st1 = self st /\ finish u result st1 = (Ok answer, st').
Proof.
  intros H. rewrite chat_completion_cases in H. cbn zeta in H.
  destruct (model _ _ _) as [[response|e] w]; [|discriminate].
  destruct (Re.re_match _ _) as [groups|];
    [|do 2 eexists; split; [|exact H]; reflexivity].
  destruct groups as [|name [|arg [|x groups]]]; try discriminate.
  destruct (tools (self st) !! name) as [tool|];
    [|do 2 eexists; split; [|exact H]; reflexivity].
  destruct (tool_run tool arg w) as [[v|e] w2]; [|discriminate].
  do 2 eexists; split; [|exact H]; reflexivity.
Qed.

(** What a completed turn leaves in the window: the old window followed
    by the user message and the assistant message holding [answer], minus
    the entries evicted from the front. *)
Lemma _handle_memory_records u answer st st' :
  _handle_memory u answer st = (Ok tt, st') ->
  (exists popped,
      short_memory (self st) ++ [Msg user u; Msg assistant answer] =
        popped ++ short_memory (self st'))
  /\ (1 <= _max_short_memory (self st) ->
      last (short_memory (self st')) = Some (Msg assistant answer)).
Proof.
  intros H.
  pose proof (_handle_memory_window u answer st) as Hw.
  rewrite H in Hw. cbn [snd] in Hw. rewrite Hw. clear Hw.
  split.
  - destruct (pop_loop _ _ _) as [res [short popped]] eqn:Hloop.
    exists popped. apply pop_loop_partition in Hloop.
    unfold appended in Hloop. rewrite <- app_assoc in Hloop. exact Hloop.
  - intros HW. rewrite pop_loop_closed_form. cbn [fst snd].
    unfold appended.
    rewrite drop_app_le.
    + apply last_snoc.
    + unfold excess. rewrite !length_app. cbn [length]. lia.
Qed.

(** C1, as the code has it.  When the trimmed reply has the form of a
    tool call and the identifier is not a key of [tools], the branch that
    would run the tool is skipped and nothing else assigns [result]:
    [chat_completion] goes on with the empty string, records it in the
    window and returns it. *)
Theorem unregistered_tool_yields_empty_answer u st reply w name arg :
  model (self st) (_build_prompt (self st) u) (world st) = (Ok reply, w) ->
  Re.re_match tool_call_pattern (PyStr.strip reply) = Some [name; arg] ->
  tools (self st) !! name = None ->
  chat_completion u st =
    finish u "" (after_model st (_build_prompt (self st) u) w)
  /\ forall answer st',
      chat_completion u st = (Ok answer, st') -> answer = "".
Proof.
  intros Hmodel Hmatch Htool.
  assert (Hcc : chat_completion u st =
            finish u "" (after_model st (_build_prompt (self st) u) w)).
  { rewrite chat_completion_cases. cbn zeta.
    rewrite Hmodel, Hmatch, Htool. reflexivity. }
  split; [exact Hcc|].
  intros answer st' H. rewrite Hcc in H.
  apply finish_ok in H. tauto.
Qed.

(** C6.  The reply parser on the three sample replies: [Echo(test)] gives
    name [Echo] and argument [test]; [Echo()] gives name [Echo] and the
    empty argument; [just text] gives no match, and then the turn goes on
    with that very text as its answer. *)
Theorem parser_examples :
  Re.re_match tool_call_pattern (PyStr.strip "Echo(test)")
    = Some ["Echo"; "test"]
  /\ Re.re_match tool_call_pattern (PyStr.strip "Echo()")
    = Some ["Echo"; ""]
  /\ Re.re_match tool_call_pattern (PyStr.strip "just text") = None
  /\ forall u st w,
      model (self st) (_build_prompt (self st) u) (world st)
        = (Ok "just text", w) ->
      chat_completion u st =
        finish u "just text" (after_model st (_build_prompt (self st) u) w)
      /\ forall answer st',
          chat_completion u st = (Ok answer, st') -> answer = "just text".
Proof.
  split; [vm_compute; reflexivity|].
  split; [vm_compute; reflexivity|].
  split; [vm_compute; reflexivity|].
  intros u st w Hmodel.
  assert (Hcc : chat_completion u st =
    finish u "just text" (after_model st (_build_prompt (self st) u) w)).
  { rewrite chat_completion_cases. cbn zeta. rewrite Hmodel.
    replace (Re.re_match tool_call_pattern (PyStr.strip "just text"))
      with (@None (list string)) by (vm_compute; reflexivity).
    replace (PyStr.strip "just text") with "just text"
      by (vm_compute; reflexivity).
    reflexivity. }
  split; [exact Hcc|].
  intros answer st' H. rewrite Hcc in H. apply finish_ok in H. tauto.
Qed.

(** C10.  The window records the final answer: when a turn completes
    with answer [answer] (the stripped result), the window is the old
    window followed by the user message and an assistant message whose
    content is [answer], minus what was evicted from the front; so for
    [W >= 1] the last window entry is that assistant message.  When the
    reply named a registered tool, [answer] is the stripped return value
    of the tool, not the reply. *)
Theorem window_records_final_answer u st answer st' :
  chat_completion u st = (Ok answer, st') ->
  (exists popped,
      short_memory (self st) ++ [Msg user u; Msg assistant answer] =
        popped ++ short_memory (self st'))
  /\ (1 <= _max_short_memory (self st) ->
      last (short_memory (self st')) = Some (Msg assistant answer))
  /\ (forall reply w name arg tool,
        model (self st) (_build_prompt (self st) u) (world st)
          = (Ok reply, w) ->
        Re.re_match tool_call_pattern (PyStr.strip reply)
          = Some [name; arg] ->
        tools (self st) !! name = Some tool ->
        exists v w2,
          tool_run tool arg w = (Ok v, w2) /\ answer = PyStr.strip v).
Proof.
  intros H.
  destruct (chat_completion_ok_finish u st answer st' H)
    as (result & st1 & Hs & Hfin).
  apply finish_ok in Hfin. destruct Hfin as [-> Hmem].
  apply _handle_memory_records in Hmem. rewrite Hs in Hmem.
  destruct Hmem as [Hpart Hlast].
  split; [exact Hpart|]. split; [exact Hlast|].
  intros reply w name arg tool Hmodel Hmatch Htool.
  rewrite chat_completion_cases in H. cbn zeta in H.
  rewrite Hmodel, Hmatch, Htool in H.
  destruct (tool_run tool arg w) as [[v|e] w2]; [|discriminate].
  exists v, w2. split; [reflexivity|].
  apply finish_ok in H. tauto.
Qed.

End DispatchProperties.

(** ** The window invariant along a session *)

Section Sessions.
Context {World : Type}.
Implicit Types (st : St World) (u : string).

Lemma chat_completion_bounded u st answer st' :
  chat_completion u st = (Ok answer, st') -> bounded st'.
Proof.
  intros H.
  destruct (chat_completion_ok_finish u st answer st' H)
    as (result & st1 & Hs & Hfin).
  apply finish_ok in Hfin. destruct Hfin as [_ Hmem].
  pose proof (_handle_memory_config u result st1) as Hc.
  rewrite Hmem in Hc. cbn [snd] in Hc. destruct Hc as [HW _].
  unfold bounded. rewrite HW.
  eapply _handle_memory_bound. exact Hmem.
Qed.

(** Every turn of the interaction loop re-establishes the invariant, and
    leaving the loop on [exit] keeps it. *)
Lemma interaction_loop_bounded stdin :
  forall st st',
    bounded st -> interaction_loop stdin st = (Ok tt, st') -> bounded st'.
Proof.
  induction stdin as [|line stdin IH]; intros st st' Hb H;
    cbn [interaction_loop] in H.
  - discriminate H.
  - destruct (bool_decide _).
    + inversion H; subst. exact Hb.
    + unfold bind at 1 in H.
      destruct (chat_completion (PyStr.strip line) st)
        as [[answer|e] st1] eqn:Hcc; [|discriminate H].
      apply chat_completion_bounded in Hcc.
      eapply IH; [|exact H]. exact Hcc.
Qed.

(** A session started with an empty window and a bound that is a count
    ends, when it ends normally, with the window within the bound. *)
Lemma run_bounded stdin st st' :
  short_memory (self st) = [] ->
  0 <= _max_short_memory (self st) ->
  run stdin st = (Ok tt, st') -> bounded st'.
Proof.
  intros Hempty HW H. unfold run in H.
  unfold bind at 1 in H. cbn [print] in H.
  unfold bind at 1 in H. cbn [write_transcript] in H.
  unfold bind at 1 in H.
  match type of H with context [interaction_loop stdin ?s0] =>
    destruct (interaction_loop stdin s0) as [[[]|e] st1] eqn:Hloop;
      [|discriminate H];
    assert (Hb : bounded st1)
      by (eapply interaction_loop_bounded; [|exact Hloop];
          unfold bounded; cbn; rewrite Hempty; cbn; lia)
  end.
  unfold bind at 1 in H. cbn [read_transcript] in H.
  destruct (bool_decide _); inversion H; subst; exact Hb.
Qed.

End Sessions.

(** ** Failure of the model client *)

Section Upstream.
Context {World : Type}.
Implicit Types (st : St World) (u : string).

(** Once [requests.post] has returned a response, [NexaClient.chat]
    returns whatever the payload: the value under [content], or one of the
    two error texts. *)
Lemma chat_on_response requests_post (client : NexaClient.t) messages
    (w w' : World) response :
  requests_post (NexaClient.chat_url client) (NexaClient.data messages) w
    = (Ok response, w') ->
  NexaClient.chat requests_post client messages w =
    (Ok match NexaClient.completion response with
        | Ok value => value
        | Raise e =>
            NexaClient.Text
              (if is_ValueError e then "Response is not valid JSON"
               else "Chat request failed. Error: " +:+ exn_str e)
        end, w').
Proof.
  intros H. unfold NexaClient.chat. rewrite H.
  destruct (NexaClient.completion response) as [value|e]; [reflexivity|].
  destruct (is_ValueError e); reflexivity.
Qed.

(** An exception of [requests.post] itself is not caught by
    [NexaClient.chat] nor by [ModelInterface.chat_completion]. *)
Lemma nexa_model_unreachable requests_post provider (client : NexaClient.t)
    messages (w w' : World) e :
  PyStr.lower provider = "nexa" ->
  requests_post (NexaClient.chat_url client) (NexaClient.data messages) w
    = (Raise e, w') ->
  nexa_model requests_post provider client messages w = (Raise e, w').
Proof.
  intros Hp H. unfold nexa_model, ModelInterface.chat_completion.
  cbn [ModelInterface.model_provider ModelInterface.client_chat].
  assert (Ht : PyStr.truthy provider = true).
  { destruct provider; [discriminate Hp|reflexivity]. }
  rewrite Ht, Hp. cbn [negb].
  repeat (case_bool_decide; [discriminate|]).
  case_bool_decide; [|congruence].
  unfold as_text, NexaClient.chat. rewrite H. reflexivity.
Qed.

Lemma chat_completion_model_raises u st e w :
  model (self st) (_build_prompt (self st) u) (world st) = (Raise e, w) ->
  chat_completion u st =
    (Raise e, after_model st (_build_prompt (self st) u) w).
Proof.
  intros H. rewrite chat_completion_cases. cbn zeta. rewrite H. reflexivity.
Qed.

(** [run] has no handler around the turn: an exception of
    [chat_completion] in the first turn leaves [run]. *)
Lemma run_first_turn_raises st line stdin e :
  PyStr.lower (PyStr.strip line) ∉ ["exit"; "quit"] ->
  (forall st0, self st0 = self st -> world st0 = world st ->
     fst (chat_completion (PyStr.strip line) st0) = Raise e) ->
  fst (run (line :: stdin) st) = Raise e.
Proof.
  intros Hexit Hturn. unfold run.
  unfold bind at 1. cbn [print].
  unfold bind at 1. cbn [write_transcript self world calls stdout].
  unfold bind at 1. cbn [interaction_loop].
  rewrite bool_decide_eq_false_2 by exact Hexit.
  unfold bind at 1.
  match goal with |- context [chat_completion _ ?s0] =>
    pose proof (Hturn s0 eq_refl eq_refl) as Hr;
    destruct (chat_completion (PyStr.strip line) s0) as [[answer|e'] s1]
  end.
  - discriminate Hr.
  - cbn in Hr. inversion Hr; subst. reflexivity.
Qed.

(** C3, as the code has it.  With the Nexa client, when the endpoint
    cannot be reached during the primary call of a turn, the exception of
    [requests.post] passes through [NexaClient.chat],
    [ModelInterface.chat_completion] and [Agent.chat_completion], and
    leaves [Agent.run]: no error string is produced and no further turn is
    taken. *)
Theorem unreachable_endpoint_leaves_run
    requests_post provider (client : NexaClient.t) st line stdin e w :
  model (self st) = nexa_model requests_post provider client ->
  PyStr.lower provider = "nexa" ->
  PyStr.lower (PyStr.strip line) ∉ ["exit"; "quit"] ->
  requests_post (NexaClient.chat_url client)
      (NexaClient.data (_build_prompt (self st) (PyStr.strip line)))
      (world st)
    = (Raise e, w) ->
  fst (chat_completion (PyStr.strip line) st) = Raise e
  /\ fst (run (line :: stdin) st) = Raise e.
Proof.
  intros Hmodel Hp Hexit Hpost.
  assert (Hturn : forall st0, self st0 = self st -> world st0 = world st ->
            fst (chat_completion (PyStr.strip line) st0) = Raise e).
  { intros st0 Hs Hw.
    rewrite (chat_completion_model_raises _ st0 e w); [reflexivity|].
    rewrite Hs, Hw, Hmodel.
    apply nexa_model_unreachable; assumption. }
  split.
  - apply Hturn; reflexivity.
  - apply run_first_turn_raises; assumption.
Qed.

End Upstream.

(** ** The properties on the test fixtures *)

Section OnFixtures.
Import Fixtures.

(** A window of size one: the second append already evicts. *)
Lemma window_length_at_most_W_witness :
  let st := start (agent "Hello" 1 true false) in
  let st' := snd (_handle_memory "a" "b" st) in
  _handle_memory "a" "b" st = (Ok tt, st')
  /\ (Z.of_nat (length (short_memory (self st')))
        <= _max_short_memory (self st')
      /\ _max_short_memory (self st') = _max_short_memory (self st)).
Proof.
  cbn zeta. split.
  - vm_compute. reflexivity.
  - apply (window_length_at_most_W "a" "b"
             (start (agent "Hello" 1 true false))).
    vm_compute. reflexivity.
Defined.

Lemma summary_untouched_when_disabled_witness :
  let st := start (agent "Hello" 1 true false) in
  let st' := snd (_handle_memory "a" "b" st) in
  _disable_long_memory (self st) = true
  /\ short_memory (self st') = [Msg assistant "b"]
  /\ (long_memory (self st') = long_memory (self st) /\ calls st' = calls st).
Proof.
  cbn zeta. split; [reflexivity|]. split; [vm_compute; reflexivity|].
  apply (summary_untouched_when_disabled "a" "b"
           (start (agent "Hello" 1 true false))).
  reflexivity.
Defined.


Lemma unregistered_tool_yields_empty_answer_witness :
  let st := start (agent "Foo(test)" 20 true false) in
  let prompt := _build_prompt (self st) "test" in
  model (self st) prompt (world st) = (Ok "Foo(test)", tt)
  /\ Re.re_match tool_call_pattern (PyStr.strip "Foo(test)")
     = Some ["Foo"; "test"]
  /\ tools (self st) !! "Foo" = None
  /\ (chat_completion "test" st = finish "test" "" (after_model st prompt tt)
      /\ forall answer st',
          chat_completion "test" st = (Ok answer, st') -> answer = "").
Proof.
  cbn zeta. split; [reflexivity|]. split; [vm_compute; reflexivity|].
  split; [vm_compute; reflexivity|].
  apply (unregistered_tool_yields_empty_answer "test"
           (start (agent "Foo(test)" 20 true false))
           "Foo(test)" tt "Foo" "test").
  - reflexivity.
  - vm_compute. reflexivity.
  - vm_compute. reflexivity.
Defined.

(** The failing input of C1 run through the code: the reply [Foo(test)]
    names no registered tool; the answer is the empty string, not the
    reply, and the window records the empty string. *)
Example unregistered_tool_run :
  let out := chat_completion "test"
               (start (agent "Foo(test)" 20 true false)) in
  fst out = Ok ""
  /\ short_memory (self (snd out)) = [Msg user "test"; Msg assistant ""].
Proof. cbn zeta. split; vm_compute; reflexivity. Qed.

(** The sample of the specification: the reply [Echo(hello)] with the tool
    [Echo] registered gives the answer [Echo: hello]; with no argument
    between the parentheses the tool is run on the empty string. *)
Example echo_hello :
  fst (chat_completion "hi" (start (agent "Echo(hello)" 20 true false)))
    = Ok "Echo: hello"
  /\ fst (chat_completion "hi" (start (agent "Echo()" 20 true false)))
    = Ok "Echo:".
Proof. split; vm_compute; reflexivity. Qed.

(** A session that is left at once: no call to the model, no transcript
    file. *)
Example exit_at_once :
  let out := run [" Exit "] (start (agent "Hello" 20 true false)) in
  fst out = Ok tt /\ calls (snd out) = [] /\ transcript (snd out) = None.
Proof. cbn zeta. repeat split; vm_compute; reflexivity. Qed.

(** A window of size one keeps only the latest assistant message, the pair
    it came in being split by the eviction. *)
Example window_of_one :
  let out := run ["a"; "b"; "quit"] (start (agent "Hello" 1 true false)) in
  fst out = Ok tt
  /\ short_memory (self (snd out)) = [Msg assistant "Hello"].
Proof. cbn zeta. split; vm_compute; reflexivity. Qed.

(** A negative bound makes the first turn raise: the loop empties the
    window and pops once more. *)
Example negative_bound :
  let out := _handle_memory "a" "b" (start (agent "Hello" (-1) true false)) in
  fst out = Raise (Exn IndexError "pop from empty list")
  /\ short_memory (self (snd out)) = [].
Proof. cbn zeta. split; vm_compute; reflexivity. Qed.

Lemma parser_examples_witness :
  let st := start (agent "just text" 20 true false) in
  let prompt := _build_prompt (self st) "hi" in
  model (self st) prompt (world st) = (Ok "just text", tt)
  /\ (chat_completion "hi" st =
        finish "hi" "just text" (after_model st prompt tt)
      /\ forall answer st',
          chat_completion "hi" st = (Ok answer, st') ->
          answer = "just text").
Proof.
  cbn zeta. split; [reflexivity|].
  apply (proj2 (proj2 (proj2 parser_examples)) "hi"
           (start (agent "just text" 20 true false)) tt).
  reflexivity.
Defined.

(** The tool-call test of [tests/core/test_agent.py]. *)
Lemma window_records_final_answer_witness :
  let st := start (agent "Echo(test)" 20 true false) in
  let st' := snd (chat_completion "test" st) in
  chat_completion "test" st = (Ok "Echo: test", st')
  /\ ((exists popped,
         short_memory (self st) ++ [Msg user "test"; Msg assistant "Echo: test"]
           = popped ++ short_memory (self st'))
      /\ (1 <= _max_short_memory (self st) ->
          last (short_memory (self st')) = Some (Msg assistant "Echo: test"))
      /\ (forall reply w name arg tool,
            model (self st) (_build_prompt (self st) "test") (world st)
              = (Ok reply, w) ->
            Re.re_match tool_call_pattern (PyStr.strip reply)
              = Some [name; arg] ->
            tools (self st) !! name = Some tool ->
            exists v w2,
              tool_run tool arg w = (Ok v, w2)
              /\ "Echo: test" = PyStr.strip v)).
Proof.
  cbn zeta. split; [vm_compute; reflexivity|].
  apply (window_records_final_answer "test"
           (start (agent "Echo(test)" 20 true false))).
  vm_compute. reflexivity.
Defined.

Lemma unreachable_endpoint_leaves_run_witness :
  let st := start nexa_agent in
  model (self st) = nexa_model unreachable "nexa" nexa_client
  /\ PyStr.lower "nexa" = "nexa"
  /\ (PyStr.lower (PyStr.strip "hi") ∉ ["exit"; "quit"])
  /\ unreachable (NexaClient.chat_url nexa_client)
       (NexaClient.data (_build_prompt (self st) (PyStr.strip "hi")))
       (world st) = (Raise refused, tt)
  /\ (fst (chat_completion (PyStr.strip "hi") st) = Raise refused
      /\ fst (run ["hi"; "exit"] st) = Raise refused).
Proof.
  assert (Hexit : PyStr.lower (PyStr.strip "hi") ∉ ["exit"; "quit"]).
  { apply (bool_decide_unpack _). vm_compute. exact I. }
  cbn zeta. split; [reflexivity|]. split; [vm_compute; reflexivity|].
  split; [exact Hexit|]. split; [reflexivity|].
  apply (unreachable_endpoint_leaves_run unreachable "nexa" nexa_client
           (start nexa_agent) "hi" ["exit"] refused tt).
  - reflexivity.
  - vm_compute. reflexivity.
  - exact Hexit.
  - reflexivity.
Defined.

End OnFixtures.

(** * Further properties *)

(** ** Strings *)

Section Strings.

Lemma append_nil_r (s : string) : s +:+ "" = s.
Proof.
  induction s as [|c s IH]; [reflexivity|].
  change (String c (s +:+ "") = String c s). rewrite IH. reflexivity.
Qed.

Lemma append_assoc (s1 s2 s3 : string) :
  (s1 +:+ s2) +:+ s3 = s1 +:+ (s2 +:+ s3).
Proof.
  induction s1 as [|c s1 IH]; [reflexivity|].
  change (String c ((s1 +:+ s2) +:+ s3) = String c (s1 +:+ (s2 +:+ s3))).
  rewrite IH. reflexivity.
Qed.

Lemma list_ascii_of_append (s1 s2 : string) :
  list_ascii_of_string (s1 +:+ s2) =
    list_ascii_of_string s1 ++ list_ascii_of_string s2.
Proof.
  induction s1 as [|c s1 IH]; [reflexivity|].
  change (c :: list_ascii_of_string (s1 +:+ s2) =
          c :: list_ascii_of_string s1 ++ list_ascii_of_string s2).
  rewrite IH. reflexivity.
Qed.

Lemma string_of_list_app (l1 l2 : list ascii) :
  string_of_list_ascii (l1 ++ l2) =
    string_of_list_ascii l1 +:+ string_of_list_ascii l2.
Proof.
  induction l1 as [|c l1 IH]; [reflexivity|].
  change (String c (string_of_list_ascii (l1 ++ l2)) =
          String c (string_of_list_ascii l1 +:+ string_of_list_ascii l2)).
  rewrite IH. reflexivity.
Qed.

Lemma lstrip_chars_idem l :
  PyStr.lstrip_chars (PyStr.lstrip_chars l) = PyStr.lstrip_chars l.
Proof.
  induction l as [|c l IH]; cbn; [reflexivity|].
  destruct (PyStr.isspace c) eqn:Hc; [exact IH|].
  cbn. rewrite Hc. reflexivity.
Qed.

Lemma lstrip_chars_app l1 l2 :
  PyStr.lstrip_chars (l1 ++ l2) =
    match PyStr.lstrip_chars l1 with
    | [] => PyStr.lstrip_chars l2
    | _ :: _ => PyStr.lstrip_chars l1 ++ l2
    end.
Proof.
  induction l1 as [|c l1 IH]; cbn; [reflexivity|].
  destruct (PyStr.isspace c); [exact IH|reflexivity].
Qed.

(** Stripping on the right stops at the last character that is not
    whitespace. *)
Lemma rstrip_chars_app_nonspace l1 c l2 :
  PyStr.isspace c = false ->
  PyStr.rstrip_chars (l1 ++ c :: l2) = l1 ++ c :: PyStr.rstrip_chars l2.
Proof.
  intros Hc. unfold PyStr.rstrip_chars.
  rewrite rev_app_distr. cbn [rev]. rewrite <- app_assoc. cbn [app].
  rewrite lstrip_chars_app.
  destruct (PyStr.lstrip_chars (rev l2)) as [|d l] eqn:Hl.
  - cbn [PyStr.lstrip_chars]. rewrite Hc. cbn [rev].
    rewrite rev_involutive. reflexivity.
  - rewrite rev_app_distr. cbn [rev]. rewrite rev_involutive.
    rewrite <- !app_assoc. reflexivity.
Qed.

Lemma rstrip_chars_idem l :
  PyStr.rstrip_chars (PyStr.rstrip_chars l) = PyStr.rstrip_chars l.
Proof.
  unfold PyStr.rstrip_chars. rewrite rev_involutive, lstrip_chars_idem.
  reflexivity.
Qed.

Lemma strip_chars_fixed l :
  let t := PyStr.rstrip_chars (PyStr.lstrip_chars l) in
  PyStr.rstrip_chars (PyStr.lstrip_chars t) = t.
Proof.
  cbn zeta.
  assert (Hhead : PyStr.lstrip_chars
                    (PyStr.rstrip_chars (PyStr.lstrip_chars l))
                  = PyStr.rstrip_chars (PyStr.lstrip_chars l)).
  { assert (Hl : PyStr.lstrip_chars l = []
               \/ exists c l', PyStr.lstrip_chars l = c :: l'
                               /\ PyStr.isspace c = false).
    { induction l as [|c l IH]; cbn; [left; reflexivity|].
      destruct (PyStr.isspace c) eqn:Hc; [exact IH|]. right. eauto. }
    destruct Hl as [->|(c & l' & -> & Hc)]; [reflexivity|].
    change (c :: l') with ([] ++ c :: l').
    rewrite (rstrip_chars_app_nonspace [] c l' Hc).
    cbn [app PyStr.lstrip_chars]. rewrite Hc. reflexivity. }
  rewrite Hhead. apply rstrip_chars_idem.
Qed.

(** [strip] is idempotent. *)
Lemma strip_idem (s : string) : PyStr.strip (PyStr.strip s) = PyStr.strip s.
Proof.
  unfold PyStr.strip. rewrite list_ascii_of_string_of_list_ascii.
  rewrite strip_chars_fixed. reflexivity.
Qed.

(** A text that starts and ends with characters that are not whitespace is
    left as it is. *)
Lemma strip_chars_id c l d :
  PyStr.isspace c = false -> PyStr.isspace d = false ->
  PyStr.rstrip_chars (PyStr.lstrip_chars (c :: l ++ [d])) = c :: l ++ [d].
Proof.
  intros Hc Hd. cbn [PyStr.lstrip_chars]. rewrite Hc.
  change (c :: l ++ [d]) with ((c :: l) ++ d :: []).
  rewrite (rstrip_chars_app_nonspace (c :: l) d [] Hd). reflexivity.
Qed.

End Strings.

(** ** The summarization request *)

Section Containment.

Lemma contains_head t after : contains (t +:+ after) t.
Proof. exists "", after. reflexivity. Qed.

Lemma contains_refl s : contains s s.
Proof. exists "", "". rewrite append_nil_r. reflexivity. Qed.

Lemma contains_append_l x s t : contains s t -> contains (x +:+ s) t.
Proof.
  intros (a & b & ->). exists (x +:+ a), b. rewrite append_assoc.
  reflexivity.
Qed.

Lemma contains_append_r x s t : contains s t -> contains (s +:+ x) t.
Proof.
  intros (a & b & ->). exists a, (b +:+ x). rewrite !append_assoc.
  reflexivity.
Qed.

Lemma contains_trans s t v : contains s t -> contains t v -> contains s v.
Proof.
  intros (a & b & ->) Hv.
  apply contains_append_l, contains_append_r. exact Hv.
Qed.

Lemma contains_join sep (parts : list string) x :
  x ∈ parts -> contains (PyStr.join sep parts) x.
Proof.
  induction parts as [|p parts IH]; intros Hx.
  - apply elem_of_nil in Hx. destruct Hx.
  - apply elem_of_cons in Hx.
    destruct parts as [|q parts].
    + destruct Hx as [->|Hx]; [apply contains_refl|].
      apply elem_of_nil in Hx. destruct Hx.
    + change (PyStr.join sep (p :: q :: parts))
        with (p +:+ sep +:+ PyStr.join sep (q :: parts)).
      destruct Hx as [->|Hx]; [apply contains_head|].
      do 2 apply contains_append_l. apply IH. exact Hx.
Qed.

Lemma render_contains_content m : contains (render m) (content m).
Proof.
  unfold render. do 2 apply contains_append_l. apply contains_refl.
Qed.

Lemma rendered_entries_contain sep (entries : list Message) m :
  m ∈ entries ->
  contains (PyStr.join sep (map render entries)) (content m).
Proof.
  intros Hm. eapply contains_trans; [|apply render_contains_content].
  apply contains_join. apply list_elem_of_fmap. exists m. auto.
Qed.

(** The request text holds the previous summary and the content of every
    popped entry and of every entry of the window left. *)
Lemma instruction_content_contains lm (popped short : list Message) :
  contains (instruction_content lm popped short) lm
  /\ (forall m, m ∈ popped ->
        contains (instruction_content lm popped short) (content m))
  /\ (forall m, m ∈ short ->
        contains (instruction_content lm popped short) (content m)).
Proof.
  unfold instruction_content. cbn zeta. split; [|split].
  - do 4 apply contains_append_l. apply contains_head.
  - intros m Hm. do 9 apply contains_append_l. apply contains_append_r.
    apply rendered_entries_contain. exact Hm.
  - intros m Hm. do 14 apply contains_append_l. apply contains_append_r.
    apply rendered_entries_contain. exact Hm.
Qed.

End Containment.

Section Summarization.
Context {World : Type}.
Implicit Types (st : St World) (u r : string).

(** C8, as amended.  With a bound [W >= 0], when the call evicts at least
    one entry (the first [n > 0] entries of the appended window, which the
    loop pops in that order) and long-term summarization is enabled,
    [_handle_memory] sends exactly one more prompt to the model, a single
    message whose text contains the previous summary, the content of every
    evicted entry and the content of every entry of the window left; once
    the model has answered, the summary is that answer with surrounding
    whitespace stripped, replacing the previous one; if the call raises,
    the exception leaves [_handle_memory] and the summary stays. *)
Theorem summary_replaced_by_stripped_answer u r st :
  let W := _max_short_memory (self st) in
  let window := short_memory (self st) ++ [Msg user u; Msg assistant r] in
  let n := excess W (length window) in
  let popped := take n window in
  let short := drop n window in
  let out := _handle_memory u r st in
  0 <= W ->
  (0 < n)%nat ->
  _disable_long_memory (self st) = false ->
  pop_loop W window [] = (Ok tt, (short, popped))
  /\ short_memory (self (snd out)) = short
  /\ exists request,
      request = instruction_content (long_memory (self st)) popped short
      /\ calls (snd out) = calls st ++ [[Msg system request]]
      /\ contains request (long_memory (self st))
      /\ (forall m, m ∈ popped -> contains request (content m))
      /\ (forall m, m ∈ short -> contains request (content m))
      /\ match model (self st) [Msg system request] (world st) with
         | (Ok summary, w) =>
             fst out = Ok tt
             /\ long_memory (self (snd out)) = PyStr.strip summary
             /\ world (snd out) = w
         | (Raise e, w) =>
             fst out = Raise e
             /\ long_memory (self (snd out)) = long_memory (self st)
             /\ world (snd out) = w
         end.
Proof.
  intros W window n popped short out HW Hn Hd.
  assert (Hloop : pop_loop W window [] = (Ok tt, (short, popped))).
  { rewrite pop_loop_closed_form.
    rewrite (proj2 (Z.ltb_ge W 0)) by exact HW. reflexivity. }
  assert (Hpopped : popped <> []).
  { intros Hnil. apply (f_equal length) in Hnil.
    unfold popped, window in Hnil.
    rewrite length_take, length_app in Hnil. cbn [length] in Hnil. lia. }
  assert (Hcases : out =
            bind (call_model (summary_prompt (self st) popped short))
                 (fun summary =>
                    modify_self (set_long_memory (PyStr.strip summary)))
                 (with_self (set_short_memory short) st)).
  { unfold out. rewrite _handle_memory_cases. cbn zeta.
    unfold appended. rewrite <- app_assoc. cbn [app].
    fold window. fold W. rewrite Hloop, Hd.
    destruct popped as [|m popped']; [congruence|reflexivity]. }
  pose proof (instruction_content_contains (long_memory (self st))
                popped short) as (Hlm & Hp & Hs).
  split; [exact Hloop|].
  rewrite Hcases. unfold bind, call_model, summary_prompt. cbn.
  destruct (model (self st) _ (world st)) as [[summary|e] w] eqn:Hm; cbn.
  - split; [reflexivity|]. eexists. split; [reflexivity|].
    rewrite Hm. repeat split; auto.
  - split; [reflexivity|]. eexists. split; [reflexivity|].
    rewrite Hm. repeat split; auto.
Qed.

End Summarization.

Section SummarizationOnFixtures.
Import Fixtures.

Lemma summary_replaced_by_stripped_answer_witness :
  let st := start (agent " Hello " 1 false false) in
  let W := _max_short_memory (self st) in
  let window := short_memory (self st) ++ [Msg user "a"; Msg assistant "b"] in
  let n := excess W (length window) in
  let popped := take n window in
  let short := drop n window in
  let out := _handle_memory "a" "b" st in
  0 <= W
  /\ (0 < n)%nat
  /\ _disable_long_memory (self st) = false
  /\ (pop_loop W window [] = (Ok tt, (short, popped))
      /\ short_memory (self (snd out)) = short
      /\ exists request,
          request = instruction_content (long_memory (self st)) popped short
          /\ calls (snd out) = calls st ++ [[Msg system request]]
          /\ contains request (long_memory (self st))
          /\ (forall m, m ∈ popped -> contains request (content m))
          /\ (forall m, m ∈ short -> contains request (content m))
          /\ match model (self st) [Msg system request] (world st) with
             | (Ok summary, w) =>
                 fst out = Ok tt
                 /\ long_memory (self (snd out)) = PyStr.strip summary
                 /\ world (snd out) = w
             | (Raise e, w) =>
                 fst out = Raise e
                 /\ long_memory (self (snd out)) = long_memory (self st)
                 /\ world (snd out) = w
             end).
Proof.
  cbn zeta. split; [vm_compute; discriminate|].
  split; [vm_compute; lia|]. split; [reflexivity|].
  apply (summary_replaced_by_stripped_answer "a" "b"
           (start (agent " Hello " 1 false false))).
  - vm_compute. discriminate.
  - vm_compute. lia.
  - reflexivity.
Defined.

(** C8 as stated fails, in two ways.  First (bound one, the model answering
    the summarization request with a text that has a leading and a trailing
    space): the summary stored is not that text but the text without the
    two spaces.  Second (bound minus one, long-term summarization enabled):
    the loop evicts both entries of the window, then raises [IndexError];
    no prompt is sent and the summary is not written. *)
Lemma summary_is_not_the_raw_answer :
  (let st := start (agent " Hello " 1 false false) in
   let prompt :=
     [Msg system
        (instruction_content "" [Msg user "a"] [Msg assistant "b"])] in
   let st' := snd (_handle_memory "a" "b" st) in
   calls st' = [prompt]
   /\ model (self st) prompt (world st) = (Ok " Hello ", tt)
   /\ long_memory (self st') = "Hello"
   /\ long_memory (self st') <> " Hello ")
  /\ (let st := start (agent " Hello " (-1) false false) in
      let out := _handle_memory "a" "b" st in
      _disable_long_memory (self st) = false
      /\ pop_loop (-1) (short_memory (self st)
                          ++ [Msg user "a"; Msg assistant "b"]) []
         = (Raise (Exn IndexError "pop from empty list"),
            ([], [Msg user "a"; Msg assistant "b"]))
      /\ fst out = Raise (Exn IndexError "pop from empty list")
      /\ calls (snd out) = calls st
      /\ long_memory (self (snd out)) = long_memory (self st)).
Proof.
  cbn zeta. split.
  - split; [vm_compute; reflexivity|].
    split; [reflexivity|]. split; [vm_compute; reflexivity|].
    vm_compute. discriminate.
  - repeat split; vm_compute; reflexivity.
Defined.

End SummarizationOnFixtures.

(** ** The tool-call grammar *)

Section Grammar.

Lemma star_split {R} k s (cont : list ascii -> option R) r :
  Re.star k s cont = Some r ->
  exists s1 s2,
    s = s1 ++ s2
    /\ Forall (fun c => Re.in_class k c = true) s1
    /\ cont s2 = Some r.
Proof.
  induction s as [|c s IH]; cbn [Re.star]; intros H.
  - exists [], []. auto.
  - destruct (Re.in_class k c) eqn:Hc;
      [|exists [], (c :: s); auto].
    destruct (Re.star k s cont) as [r'|] eqn:Hs;
      [|exists [], (c :: s); auto].
    inversion H; subst r'.
    destruct (IH eq_refl) as (s1 & s2 & -> & Hall & Hcont).
    exists (c :: s1), s2. auto.
Qed.

Lemma star_prefix {R} k s1 s2 (cont : list ascii -> option R) r :
  Forall (fun c => Re.in_class k c = true) s1 ->
  Re.star k s2 cont = Some r ->
  Re.star k (s1 ++ s2) cont = Some r.
Proof.
  intros Hall Hs. induction Hall as [|c s1 Hc _ IH]; [exact Hs|].
  cbn [app Re.star]. rewrite Hc, IH. reflexivity.
Qed.

Lemma star_any_last {R} (cont : list ascii -> option R) s c r :
  cont [] = None -> cont [c] = Some r ->
  Re.star Re.CAny (s ++ [c]) cont = Some r.
Proof.
  intros Hnil Hc. induction s as [|a s IH].
  - cbn. rewrite Hnil. exact Hc.
  - cbn [app Re.star Re.in_class]. rewrite IH. reflexivity.
Qed.

Lemma take_app_excess {A} (l1 l2 : list A) :
  take (length (l1 ++ l2) - length l2) (l1 ++ l2) = l1.
Proof.
  rewrite length_app.
  replace (length l1 + length l2 - length l2)%nat with (length l1) by lia.
  apply take_app_length.
Qed.

Lemma star_stop {R} k c s (cont : list ascii -> option R) :
  Re.in_class k c = false -> Re.star k (c :: s) cont = cont (c :: s).
Proof. intros Hc. cbn [Re.star]. rewrite Hc. reflexivity. Qed.

(** The matcher on the characters of [name(arg)]. *)
Lemma rmatch_call_text (N A : list ascii) c0 :
  Forall (fun c => PyStr.isword c = true) (c0 :: N) ->
  let inp := (c0 :: N) ++ "("%char :: A ++ [")"%char] in
  Re.rmatch inp tool_call_pattern (inp, [])
    (fun p => Some (map string_of_list_ascii (snd p)))
  = Some [string_of_list_ascii (c0 :: N); string_of_list_ascii A].
Proof.
  intros Hword. inversion Hword as [|? ? Hc0 HN]; subst. cbn zeta.
  unfold tool_call_pattern. cbn [Re.rmatch fst snd].
  rewrite Nat.eqb_refl. cbn [app Re.in_class]. rewrite Hc0.
  apply star_prefix; [exact HN|].
  rewrite star_stop by reflexivity.
  rewrite Ascii.eqb_refl.
  apply star_any_last; [reflexivity|].
  rewrite Ascii.eqb_refl.
  change (c0 :: N ++ "("%char :: A ++ [")"%char])
    with ((c0 :: N) ++ "("%char :: A ++ [")"%char]).
  rewrite !take_app_excess. reflexivity.
Qed.

Lemma re_match_call_text name arg :
  identifier name ->
  Re.re_match tool_call_pattern (call_text name arg) = Some [name; arg].
Proof.
  intros [Hne Hword]. unfold Re.re_match, call_text.
  rewrite !list_ascii_of_append.
  change (list_ascii_of_string "(") with ["("%char].
  change (list_ascii_of_string ")") with [")"%char].
  cbn [app].
  destruct (list_ascii_of_string name) as [|c0 N] eqn:HN.
  { destruct name; [congruence|discriminate]. }
  pose proof (rmatch_call_text N (list_ascii_of_string arg) c0 Hword) as H.
  cbn zeta in H. rewrite H.
  rewrite <- HN, !string_of_list_ascii_of_string. reflexivity.
Qed.

(** What a match says about the text: it is an identifier, an opening
    parenthesis, the argument and a closing parenthesis, followed by
    nothing or by one newline. *)
Lemma parse_gives_call_text s name arg :
  Re.re_match tool_call_pattern s = Some [name; arg] ->
  identifier name
  /\ (s = call_text name arg \/ s = call_text name arg +:+ PyStr.nl).
Proof.
  unfold Re.re_match, tool_call_pattern. cbn [Re.rmatch fst snd].
  rewrite Nat.eqb_refl.
  destruct (list_ascii_of_string s) as [|c0 inp] eqn:Hs; [discriminate|].
  cbn [Re.in_class].
  destruct (PyStr.isword c0) eqn:Hc0; [|discriminate].
  intros H. apply star_split in H.
  destruct H as (N & s1 & -> & HN & H).
  destruct s1 as [|c1 s1]; [discriminate|].
  destruct (Ascii.eqb_spec "(" c1) as [<-|]; [|discriminate].
  apply star_split in H. destruct H as (A & s2 & -> & _ & H).
  destruct s2 as [|c2 s2]; [discriminate|].
  destruct (Ascii.eqb_spec ")" c2) as [<-|]; [|discriminate].
  change (c0 :: N ++ "("%char :: A ++ ")"%char :: s2)
    with ((c0 :: N) ++ "("%char :: A ++ ")"%char :: s2) in H.
  rewrite !take_app_excess in H. cbn [app map] in H.
  assert (Hgroups : name = string_of_list_ascii (c0 :: N)
                    /\ arg = string_of_list_ascii A
                    /\ (s2 = [] \/ s2 = [ascii_of_nat 10])).
  { destruct s2 as [|c3 [|c4 s2]]; [| |discriminate].
    - inversion H. auto.
    - destruct (Ascii.eqb_spec c3 (ascii_of_nat 10)) as [->|];
        [|discriminate].
      inversion H. auto. }
  destruct Hgroups as (-> & -> & Hs2). split.
  - split; [discriminate|].
    rewrite list_ascii_of_string_of_list_ascii.
    constructor; [exact Hc0|exact HN].
  - rewrite <- (string_of_list_ascii_of_string s), Hs.
    unfold call_text.
    change (c0 :: N ++ "("%char :: A ++ ")"%char :: s2)
      with ((c0 :: N) ++ ["("%char] ++ A ++ [")"%char] ++ s2).
    rewrite !string_of_list_app.
    destruct Hs2 as [->| ->]; [left|right].
    + cbn [string_of_list_ascii]. rewrite append_nil_r. reflexivity.
    + rewrite !append_assoc. reflexivity.
Qed.

Lemma lstrip_chars_length l :
  (length (PyStr.lstrip_chars l) <= length l)%nat.
Proof.
  induction l as [|c l IH]; cbn; [lia|].
  destruct (PyStr.isspace c); cbn; lia.
Qed.

(** A stripped text does not end with a newline. *)
Lemma strip_no_final_newline s t : PyStr.strip s <> t +:+ PyStr.nl.
Proof.
  intros H. pose proof (strip_idem s) as Hidem. rewrite H in Hidem.
  apply (f_equal list_ascii_of_string) in Hidem.
  unfold PyStr.strip in Hidem.
  rewrite list_ascii_of_string_of_list_ascii in Hidem.
  rewrite list_ascii_of_append in Hidem.
  change (list_ascii_of_string PyStr.nl) with [ascii_of_nat 10] in Hidem.
  apply (f_equal length) in Hidem.
  set (T := list_ascii_of_string t) in *.
  assert (Hlen : (length (PyStr.rstrip_chars
                            (PyStr.lstrip_chars (T ++ [ascii_of_nat 10])))
                  <= length T)%nat).
  { rewrite lstrip_chars_app.
    pose proof (lstrip_chars_length T) as HT.
    destruct (PyStr.lstrip_chars T) as [|c l].
    { change (PyStr.lstrip_chars [ascii_of_nat 10]) with (@nil ascii).
      cbn. lia. }
    unfold PyStr.rstrip_chars. rewrite rev_app_distr.
    cbn [rev app PyStr.lstrip_chars].
    change (PyStr.isspace (ascii_of_nat 10)) with true. cbn iota.
    rewrite length_rev.
    etransitivity; [apply lstrip_chars_length|].
    rewrite length_app, length_rev. cbn [length] in *. lia. }
  rewrite length_app in Hidem. cbn [length] in Hidem. lia.
Qed.

(** A match on a trimmed reply: the reply is [name(arg)]. *)
Lemma tool_call_match_stripped reply groups :
  Re.re_match tool_call_pattern (PyStr.strip reply) = Some groups ->
  exists name arg,
    groups = [name; arg] /\ identifier name
    /\ PyStr.strip reply = call_text name arg.
Proof.
  intros Hm. destruct (tool_call_groups _ _ Hm) as (name & arg & ->).
  apply parse_gives_call_text in Hm. destruct Hm as [Hid [Hs|Hs]].
  - eauto.
  - exfalso. exact (strip_no_final_newline _ _ Hs).
Qed.

Lemma isword_not_space c : PyStr.isword c = true -> PyStr.isspace c = false.
Proof.
  destruct c as [[] [] [] [] [] [] [] []]; intros H;
    solve [reflexivity | discriminate H].
Qed.

(** [call_text] of an identifier is already trimmed. *)
Lemma strip_call_text name arg :
  identifier name -> PyStr.strip (call_text name arg) = call_text name arg.
Proof.
  intros [Hne Hword]. unfold PyStr.strip, call_text.
  rewrite !list_ascii_of_append.
  change (list_ascii_of_string "(") with ["("%char].
  change (list_ascii_of_string ")") with [")"%char].
  destruct (list_ascii_of_string name) as [|c0 N] eqn:HN.
  { destruct name; [congruence|discriminate]. }
  inversion Hword as [|? ? Hc0 _]; subst.
  set (A := list_ascii_of_string arg).
  assert (E : (c0 :: N) ++ ["("%char] ++ A ++ [")"%char]
              = c0 :: (N ++ "("%char :: A) ++ [")"%char]).
  { cbn [app]. rewrite <- app_assoc. reflexivity. }
  rewrite E.
  rewrite strip_chars_id; [|apply isword_not_space; exact Hc0|reflexivity].
  rewrite <- E. subst A.
  rewrite <- HN, !string_of_list_app, !string_of_list_ascii_of_string.
  reflexivity.
Qed.

(** Round trip of the wire format through the trimming and the pattern of
    [chat_completion]: the text [name(arg)], for an identifier [name] and
    any argument whatever (parentheses, newlines and surrounding blanks
    included), is left whole by [strip] and parses back to [name] and
    [arg]. *)
Theorem call_text_parses name arg :
  identifier name ->
  PyStr.strip (call_text name arg) = call_text name arg
  /\ Re.re_match tool_call_pattern (PyStr.strip (call_text name arg))
     = Some [name; arg].
Proof.
  intros Hid. split; [apply strip_call_text; exact Hid|].
  rewrite strip_call_text by exact Hid.
  apply re_match_call_text. exact Hid.
Qed.

(** The replies taken for tool calls are exactly those whose trimmed text
    is [name(arg)] for an identifier [name]; the parser then returns that
    [name] and that [arg]. *)
Theorem reply_classification reply :
  match Re.re_match tool_call_pattern (PyStr.strip reply) with
  | Some groups =>
      exists name arg,
        groups = [name; arg] /\ identifier name
        /\ PyStr.strip reply = call_text name arg
  | None =>
      forall name arg,
        identifier name -> PyStr.strip reply <> call_text name arg
  end.
Proof.
  destruct (Re.re_match _ _) as [groups|] eqn:Hm.
  - apply tool_call_match_stripped. exact Hm.
  - intros name arg Hid Hs.
    rewrite Hs, re_match_call_text in Hm by exact Hid. discriminate.
Qed.

End Grammar.

(** ** More on the memory-update operation *)

Section MemoryEdges.
Context {World : Type}.
Implicit Types (st : St World) (u r : string).

(** Below the bound nothing is evicted and, whatever the flags, nothing
    else happens: the two messages are appended, the summary and the world
    are left alone and the model is not called. *)
Theorem no_eviction_below_bound u r st :
  Z.of_nat (length (short_memory (self st))) + 2
    <= _max_short_memory (self st) ->
  _handle_memory u r st =
    (Ok tt,
     with_self
       (set_short_memory
          (short_memory (self st) ++ [Msg user u; Msg assistant r])) st).
Proof.
  intros Hroom. rewrite _handle_memory_cases. cbn zeta.
  rewrite pop_loop_closed_form.
  assert (Hlen : length (appended st u r)
                 = (length (short_memory (self st)) + 2)%nat).
  { unfold appended. rewrite !length_app. cbn. lia. }
  rewrite Hlen.
  replace (excess (_max_short_memory (self st))
             (length (short_memory (self st)) + 2)) with 0%nat
    by (unfold excess; lia).
  rewrite (proj2 (Z.ltb_ge _ 0)) by lia.
  cbn [drop take app]. unfold appended. rewrite <- app_assoc. reflexivity.
Qed.

(** A negative bound makes every call fail: the loop empties the window,
    then [pop(0)] raises [IndexError]; the turn's messages are lost, the
    summary stays and the model is not called. *)
Theorem negative_bound_always_raises u r st :
  _max_short_memory (self st) < 0 ->
  _handle_memory u r st =
    (Raise (Exn IndexError "pop from empty list"),
     with_self (set_short_memory []) st).
Proof.
  intros Hneg. rewrite _handle_memory_cases. cbn zeta.
  rewrite pop_loop_closed_form.
  rewrite (proj2 (Z.ltb_lt _ 0)) by lia.
  rewrite drop_ge; [reflexivity|]. unfold excess. lia.
Qed.

(** A full window slides by one turn: with the window at its bound [W >= 2]
    a call drops the two oldest entries and keeps the rest followed by the
    two new messages, so the window stays full. *)
Theorem full_window_slides u r st :
  2 <= _max_short_memory (self st) ->
  Z.of_nat (length (short_memory (self st))) = _max_short_memory (self st) ->
  let st' := snd (_handle_memory u r st) in
  short_memory (self st') =
    drop 2 (short_memory (self st)) ++ [Msg user u; Msg assistant r]
  /\ Z.of_nat (length (short_memory (self st'))) = _max_short_memory (self st).
Proof.
  intros HW Hfull. cbn zeta. rewrite _handle_memory_window.
  rewrite pop_loop_closed_form. cbn [fst snd].
  assert (Hlen : length (appended st u r)
                 = (length (short_memory (self st)) + 2)%nat).
  { unfold appended. rewrite !length_app. cbn. lia. }
  rewrite Hlen.
  replace (excess (_max_short_memory (self st))
             (length (short_memory (self st)) + 2)) with 2%nat
    by (unfold excess; lia).
  unfold appended. rewrite <- app_assoc. cbn [app].
  rewrite drop_app_le by lia.
  split; [reflexivity|].
  rewrite length_app, length_drop. cbn [length]. lia.
Qed.

(** With the invariant in force before the call, at most the two oldest
    entries are evicted. *)
Theorem at_most_two_evicted u r st short popped :
  bounded st ->
  pop_loop (_max_short_memory (self st))
           (short_memory (self st) ++ [Msg user u; Msg assistant r]) []
    = (Ok tt, (short, popped)) ->
  (length popped <= 2)%nat.
Proof.
  unfold bounded. intros Hb. rewrite pop_loop_closed_form.
  destruct (Z.ltb_spec (_max_short_memory (self st)) 0) as [Hneg|Hpos];
    [discriminate|].
  intros H. inversion H; subst. cbn [app].
  rewrite length_take, length_app. cbn [length]. unfold excess. lia.
Qed.

(** The window always holds the end of a sequence of whole turns: a user
    message is followed by the assistant message of the same turn, and only
    the oldest turn may have lost its user message to the eviction. *)
Theorem window_stays_paired u r st :
  paired (short_memory (self st)) ->
  paired (short_memory (self (snd (_handle_memory u r st)))).
Proof.
  intros [turns Hsuffix]. rewrite _handle_memory_window.
  rewrite pop_loop_closed_form. cbn [fst snd].
  exists (turns ++ [(u, r)]).
  etransitivity; [apply suffix_drop|].
  unfold turns_window. rewrite flat_map_app. cbn [flat_map fst snd app].
  unfold appended. rewrite <- app_assoc. cbn [app].
  apply suffix_app. exact Hsuffix.
Qed.

End MemoryEdges.

(** ** More on the turn *)

Section TurnEdges.
Context {World : Type}.
Implicit Types (st : St World) (u r : string).

(** [_handle_memory] sends at most one prompt, a summarization request,
    and none when long-term memory is disabled; it neither prints nor
    writes the transcript. *)
Lemma _handle_memory_effects u r st :
  let st' := snd (_handle_memory u r st) in
  (calls st' = calls st
   \/ _disable_long_memory (self st) = false
      /\ exists popped short,
          calls st' = calls st ++ [summary_prompt (self st) popped short])
  /\ stdout st' = stdout st /\ transcript st' = transcript st.
Proof.
  cbn zeta. rewrite _handle_memory_cases. cbn zeta.
  destruct (pop_loop _ _ _) as [[[]|e] [short [|m popped]]];
    try (split; [left|split]; reflexivity).
  destruct (_disable_long_memory (self st)) eqn:Hd;
    [split; [left|split]; reflexivity|].
  unfold bind, call_model. cbn.
  destruct (model _ _ _) as [[summary|e] w]; cbn;
    (split; [right; split; [reflexivity|]; eauto|split; reflexivity]).
Qed.

(** A turn calls the model once for the answer and at most once more, for
    a summary; with long-term memory disabled, exactly once.  The first
    prompt is the one built from the state at the start of the turn. *)
Theorem model_calls_per_turn u st :
  let st' := snd (chat_completion u st) in
  exists extra,
    calls st' = calls st ++ _build_prompt (self st) u :: extra
    /\ (length extra <= 1)%nat
    /\ Forall (fun prompt => exists text, prompt = [Msg system text]) extra
    /\ (_disable_long_memory (self st) = true -> extra = []).
Proof.
  cbn zeta. rewrite chat_completion_cases. cbn zeta.
  assert (Hfinish : forall result st1,
    self st1 = self st ->
    calls st1 = calls st ++ [_build_prompt (self st) u] ->
    exists extra,
      calls (snd (finish u result st1))
        = calls st ++ _build_prompt (self st) u :: extra
      /\ (length extra <= 1)%nat
      /\ Forall (fun prompt => exists text, prompt = [Msg system text]) extra
      /\ (_disable_long_memory (self st) = true -> extra = [])).
  { intros result st1 Hself Hcalls.
    pose proof (_handle_memory_effects u result st1) as [Heff _].
    unfold finish, bind, ret.
    destruct (_handle_memory u result st1) as [[[]|e] st2]; cbn [snd] in *;
      (destruct Heff as [Heff|(Hd & popped & short & Heff)];
       [exists []; rewrite Heff, Hcalls; repeat split; auto
       |exists [summary_prompt (self st1) popped short];
        rewrite Heff, Hcalls, <- app_assoc; repeat split;
        [cbn; lia
        |constructor; [unfold summary_prompt; eauto|constructor]
        |rewrite Hself in Hd; congruence]]). }
  assert (Hnone : exists extra,
    calls st ++ [_build_prompt (self st) u]
      = calls st ++ _build_prompt (self st) u :: extra
    /\ (length extra <= 1)%nat
    /\ Forall (fun prompt => exists text, prompt = [Msg system text]) extra
    /\ (_disable_long_memory (self st) = true -> extra = [])).
  { exists []. repeat split; auto. }
  destruct (model _ _ _) as [[response|e] w]; [|exact Hnone].
  destruct (Re.re_match _ _) as [groups|];
    [|apply Hfinish; reflexivity].
  destruct groups as [|name [|arg [|x groups]]]; try exact Hnone.
  destruct (tools (self st) !! name) as [tool|];
    [|apply Hfinish; reflexivity].
  destruct (tool_run tool arg w) as [[v|e] w2];
    [apply Hfinish; reflexivity|exact Hnone].
Qed.

(** A turn that fails before the memory update leaves the agent as it
    was: when the primary call raises, or when the tool named by the reply
    raises, the exception leaves [chat_completion] and neither the window
    nor the summary has changed (the user message is not recorded). *)
Theorem failed_call_leaves_memory u st e :
  (exists w,
      model (self st) (_build_prompt (self st) u) (world st) = (Raise e, w))
  \/ (exists reply w name arg tool w2,
         model (self st) (_build_prompt (self st) u) (world st)
           = (Ok reply, w)
         /\ Re.re_match tool_call_pattern (PyStr.strip reply)
            = Some [name; arg]
         /\ tools (self st) !! name = Some tool
         /\ tool_run tool arg w = (Raise e, w2)) ->
  fst (chat_completion u st) = Raise e
  /\ self (snd (chat_completion u st)) = self st.
Proof.
  rewrite chat_completion_cases. cbn zeta.
  intros [[w Hm]|(reply & w & name & arg & tool & w2 & Hm & Hp & Ht & Hr)].
  - rewrite Hm. split; reflexivity.
  - rewrite Hm, Hp, Ht, Hr. split; reflexivity.
Qed.

(** Every answer returned (and recorded) is trimmed: stripping it again
    changes nothing. *)
Theorem answers_are_stripped u st answer st' :
  chat_completion u st = (Ok answer, st') -> PyStr.strip answer = answer.
Proof.
  rewrite chat_completion_cases. cbn zeta.
  destruct (model _ _ _) as [[response|e] w]; [|discriminate].
  destruct (Re.re_match _ _) as [groups|].
  - destruct groups as [|name [|arg [|x groups]]]; try discriminate.
    destruct (tools (self st) !! name) as [tool|].
    + destruct (tool_run tool arg w) as [[v|e] w2]; [|discriminate].
      intros H. apply finish_ok in H. destruct H as [-> _].
      apply strip_idem.
    + intros H. apply finish_ok in H. destruct H as [-> _]. reflexivity.
  - intros H. apply finish_ok in H. destruct H as [-> _]. apply strip_idem.
Qed.

(** A reply whose trimmed text is [name(arg)] for a registered tool runs
    that tool on the whole of [arg], once, and the turn ends with the
    tool's stripped return value; if the tool raises, so does the turn. *)
Theorem registered_call_runs_tool u st reply w name arg tool :
  model (self st) (_build_prompt (self st) u) (world st) = (Ok reply, w) ->
  identifier name ->
  PyStr.strip reply = call_text name arg ->
  tools (self st) !! name = Some tool ->
  chat_completion u st =
    let st1 := after_model st (_build_prompt (self st) u) w in
    match tool_run tool arg w with
    | (Ok v, w2) => finish u (PyStr.strip v) (set_world w2 st1)
    | (Raise e, w2) => (Raise e, set_world w2 st1)
    end.
Proof.
  intros Hm Hid Hs Ht. rewrite chat_completion_cases. cbn zeta.
  rewrite Hm, Hs, re_match_call_text by exact Hid. rewrite Ht. reflexivity.
Qed.

(** A reply whose trimmed text is not of the form [name(arg)] is the
    answer itself, trimmed; no tool is looked up or run. *)
Theorem plain_reply_is_the_answer u st reply w :
  model (self st) (_build_prompt (self st) u) (world st) = (Ok reply, w) ->
  (forall name arg,
      identifier name -> PyStr.strip reply <> call_text name arg) ->
  chat_completion u st =
    finish u (PyStr.strip reply)
      (after_model st (_build_prompt (self st) u) w).
Proof.
  intros Hm Hplain. rewrite chat_completion_cases. cbn zeta. rewrite Hm.
  destruct (Re.re_match _ _) as [groups|] eqn:Hp; [|reflexivity].
  destruct (tool_call_match_stripped reply groups Hp)
    as (name & arg & _ & Hid & Hs).
  exfalso. exact (Hplain name arg Hid Hs).
Qed.

End TurnEdges.

(** ** More on the session *)

Section SessionEdges.
Context {World : Type}.
Implicit Types (st : St World) (u : string).

(** A turn neither prints nor writes the transcript; [run] does. *)
Lemma chat_completion_io u st :
  stdout (snd (chat_completion u st)) = stdout st
  /\ transcript (snd (chat_completion u st)) = transcript st.
Proof.
  rewrite chat_completion_cases. cbn zeta.
  assert (Hfinish : forall result st1,
            stdout st1 = stdout st -> transcript st1 = transcript st ->
            stdout (snd (finish u result st1)) = stdout st
            /\ transcript (snd (finish u result st1)) = transcript st).
  { intros result st1 Ho Ht.
    pose proof (_handle_memory_effects u result st1) as (_ & Ho' & Ht').
    unfold finish, bind, ret.
    destruct (_handle_memory u result st1) as [[[]|e] st2]; cbn [snd] in *;
      split; congruence. }
  destruct (model _ _ _) as [[response|e] w]; [|split; reflexivity].
  destruct (Re.re_match _ _) as [groups|]; [|apply Hfinish; reflexivity].
  destruct groups as [|name [|arg [|x groups]]]; try (split; reflexivity).
  destruct (tools (self st) !! name) as [tool|];
    [|apply Hfinish; reflexivity].
  destruct (tool_run tool arg w) as [[v|e] w2];
    [apply Hfinish; reflexivity|split; reflexivity].
Qed.

Lemma bind_ext {A B} (c : M World A) (k1 k2 : A -> M World B) st :
  (forall a st', k1 a st' = k2 a st') -> bind c k1 st = bind c k2 st.
Proof.
  intros Hk. unfold bind. destruct (c st) as [[a|e] st']; [apply Hk|].
  reflexivity.
Qed.

Lemma interaction_loop_cut pre line post :
  is_exit line ->
  forall st,
    interaction_loop (pre ++ line :: post) st
    = interaction_loop (pre ++ [line]) st.
Proof.
  intros Hexit. induction pre as [|l pre IH]; intros st;
    cbn [app interaction_loop].
  - rewrite bool_decide_eq_true_2 by exact Hexit. reflexivity.
  - destruct (bool_decide _); [reflexivity|].
    do 4 (apply bind_ext; intros ? ?). apply IH.
Qed.

(** Leaving at the first line: whatever follows, no turn is taken, the
    model is not called, the agent is unchanged and the transcript file,
    which holds the header only, is removed. *)
Theorem exit_at_first_line line rest st :
  is_exit line ->
  run (line :: rest) st =
    (Ok tt,
     {| self := self st; world := world st; calls := calls st;
        stdout := (stdout st ++ ["Type 'exit' or 'quit' to end the chat."])
                  ++ ["Goodbye!"];
        transcript := None |}).
Proof.
  intros Hexit. unfold run. unfold bind. cbn [print write_transcript].
  cbn [interaction_loop].
  rewrite bool_decide_eq_true_2 by exact Hexit.
  cbn [print read_transcript transcript default].
  rewrite bool_decide_eq_true_2 by reflexivity. reflexivity.
Qed.

(** The lines after the first [exit] or [quit] are never read. *)
Theorem nothing_read_after_exit pre line post st :
  is_exit line ->
  run (pre ++ line :: post) st = run (pre ++ [line]) st.
Proof.
  intros Hexit. unfold run. do 2 (apply bind_ext; intros ? ?).
  unfold bind at 1 3.
  rewrite (interaction_loop_cut pre line post Hexit). reflexivity.
Qed.

Lemma transcript_body_nonempty turn turns :
  transcript_body (turn :: turns) <> "".
Proof. cbn [transcript_body foldr]. unfold turn_block. discriminate. Qed.

(** A turn does not look at what was printed nor at the transcript. *)
Lemma _handle_memory_frame u r out file st :
  _handle_memory u r (set_io out file st) =
    (fst (_handle_memory u r st),
     set_io out file (snd (_handle_memory u r st))).
Proof.
  rewrite !_handle_memory_cases. unfold appended. cbn.
  destruct (pop_loop _ _ _) as [[[]|e] [short [|m popped]]];
    try reflexivity.
  destruct (_disable_long_memory (self st)); [reflexivity|].
  unfold bind, call_model, summary_prompt. cbn.
  destruct (model _ _ _) as [[summary|e] w]; reflexivity.
Qed.

Lemma finish_frame u result out file st :
  finish u result (set_io out file st) =
    (fst (finish u result st), set_io out file (snd (finish u result st))).
Proof.
  unfold finish, bind, ret. rewrite _handle_memory_frame.
  destruct (_handle_memory u result st) as [[[]|e] st1]; reflexivity.
Qed.

Lemma chat_completion_frame u out file st :
  chat_completion u (set_io out file st) =
    (fst (chat_completion u st), set_io out file (snd (chat_completion u st))).
Proof.
  rewrite !chat_completion_cases. cbn zeta.
  cbn [set_io self world].
  destruct (model _ _ _) as [[response|e] w]; [|reflexivity].
  destruct (Re.re_match _ _) as [groups|];
    [|apply (finish_frame u _ out file (after_model st _ w))].
  destruct groups as [|name [|arg [|x groups]]]; try reflexivity.
  destruct (tools (self st) !! name) as [tool|];
    [|apply (finish_frame u _ out file (after_model st _ w))].
  destruct (tool_run tool arg w) as [[v|e] w2]; [|reflexivity].
  apply (finish_frame u _ out file (set_world w2 (after_model st _ w))).
Qed.

Lemma take_turns_frame lines out file :
  forall st,
    take_turns lines (set_io out file st) =
      (fst (take_turns lines st), set_io out file (snd (take_turns lines st))).
Proof.
  induction lines as [|l lines IH]; intros st; cbn [take_turns];
    [reflexivity|].
  rewrite chat_completion_frame.
  destruct (chat_completion (PyStr.strip l) st) as [[answer|e] st1];
    cbn [fst snd]; [|reflexivity].
  rewrite IH.
  destruct (take_turns lines st1) as [[turns|e] st2]; reflexivity.
Qed.

Lemma take_turns_inputs lines :
  forall st turns st',
    take_turns lines st = (Ok turns, st') ->
    map fst turns = map PyStr.strip lines.
Proof.
  induction lines as [|l lines IH]; intros st turns st' H;
    cbn [take_turns] in H.
  - inversion H. reflexivity.
  - destruct (chat_completion (PyStr.strip l) st) as [[answer|e] st1];
      [|discriminate H].
    destruct (take_turns lines st1) as [[turns'|e] st2] eqn:Ht;
      [|discriminate H].
    inversion H; subst. cbn. f_equal. eapply IH. exact Ht.
Qed.

Lemma set_io_set_io out file out' file' st :
  set_io out file (set_io out' file' st) = set_io out file st.
Proof. reflexivity. Qed.

(** What a loop that ends normally has done: it took the turns of the
    lines before the first [exit] or [quit], printed each answer and
    appended each turn's block to the transcript; the state it leaves is
    the one the turns have left, but for what was printed and logged. *)
Lemma interaction_loop_log stdin :
  forall st st',
    interaction_loop stdin st = (Ok tt, st') ->
    exists pre line post turns st1,
      stdin = pre ++ line :: post
      /\ Forall (fun l => ~ is_exit l) pre
      /\ is_exit line
      /\ take_turns pre st = (Ok turns, st1)
      /\ st' =
           set_io
             (stdout st ++ map (fun turn => "Agent: " +:+ snd turn) turns
                ++ ["Goodbye!"])
             match turns with
             | [] => transcript st
             | _ :: _ =>
                 Some (default "" (transcript st)
                       +:+ transcript_body turns)
             end
             st1.
Proof.
  induction stdin as [|l stdin IH]; intros st st' H;
    cbn [interaction_loop] in H; [discriminate H|].
  destruct (bool_decide _) eqn:Hexit.
  - apply bool_decide_eq_true_1 in Hexit.
    inversion H; subst; clear H.
    exists [], l, stdin, [], st. cbn [app map take_turns].
    repeat split; auto.
  - apply bool_decide_eq_false_1 in Hexit.
    unfold bind at 1 in H.
    pose proof (chat_completion_io (PyStr.strip l) st) as [Ho Ht].
    destruct (chat_completion (PyStr.strip l) st) as [[answer|e] st1] eqn:Hcc;
      [|discriminate H].
    cbn [snd] in Ho, Ht.
    unfold bind in H. cbn [print append_transcript] in H.
    cbn [self world calls stdout transcript] in H.
    match type of H with interaction_loop stdin ?s0 = _ =>
      change s0 with
        (set_io (stdout st1 ++ ["Agent: " +:+ answer])
           (Some (default ""
                    (Some (default "" (transcript st1)
                           +:+ "You: " +:+ PyStr.strip l +:+ PyStr.nl
                           +:+ PyStr.nl))
                  +:+ "Agent: " +:+ answer +:+ PyStr.nl +:+ PyStr.nl))
           st1) in H
    end.
    apply IH in H.
    destruct H as (pre & line & post & turns & st2 & -> & Hpre & Hline
                   & Hturns & ->).
    rewrite take_turns_frame in Hturns.
    destruct (take_turns pre st1) as [[turns'|e] st3] eqn:Ht3;
      cbn [fst snd] in Hturns; [|discriminate Hturns].
    inversion Hturns; subst; clear Hturns.
    exists (l :: pre), line, post, ((PyStr.strip l, answer) :: turns), st3.
    split; [reflexivity|]. split; [constructor; assumption|].
    split; [exact Hline|].
    split; [cbn [take_turns]; rewrite Hcc, Ht3; reflexivity|].
    rewrite set_io_set_io. cbn [stdout transcript set_io].
    rewrite Ho, Ht. f_equal.
    + cbn [map snd]. rewrite <- !app_assoc. reflexivity.
    + cbn [transcript_body foldr]. unfold turn_block at 1. cbn [fst snd].
      destruct turns as [|turn turns]; cbv [from_option id];
        cbn [foldr]; rewrite ?append_nil_r, ?append_assoc; reflexivity.
Qed.

(** A session that ends normally.  It was left by an [exit] or [quit]
    line; for the lines before it the turns were taken in order, each by
    [chat_completion] on the trimmed line from the state the turn before
    had left, and the agent, the world and the prompts sent at the end are
    those of the last turn.  If no turn was taken the transcript file is
    removed; otherwise it holds the header, one block per turn in order
    (the trimmed input and the answer of that turn) and the footer.  The
    calls of [print] are the banner, one line per answer and the
    farewell. *)
Theorem transcript_of_session stdin st st' :
  run stdin st = (Ok tt, st') ->
  exists pre line post turns st1,
    stdin = pre ++ line :: post
    /\ Forall (fun l => ~ is_exit l) pre
    /\ is_exit line
    /\ take_turns pre st = (Ok turns, st1)
    /\ map fst turns = map PyStr.strip pre
    /\ self st' = self st1
    /\ world st' = world st1
    /\ calls st' = calls st1
    /\ transcript st' =
         match turns with
         | [] => None
         | _ :: _ =>
             Some (file_header +:+ transcript_body turns +:+ file_footer)
         end
    /\ stdout st' =
         stdout st ++ ["Type 'exit' or 'quit' to end the chat."]
           ++ map (fun turn => "Agent: " +:+ snd turn) turns
           ++ ["Goodbye!"].
Proof.
  unfold run. unfold bind at 1. cbn [print].
  unfold bind at 1. cbn [write_transcript].
  unfold bind at 1.
  match goal with |- context [interaction_loop stdin ?s0] =>
    change s0 with
      (set_io (stdout st ++ ["Type 'exit' or 'quit' to end the chat."])
         (Some file_header) st);
    destruct (interaction_loop stdin
                (set_io (stdout st
                           ++ ["Type 'exit' or 'quit' to end the chat."])
                   (Some file_header) st)) as [[[]|e] st1] eqn:Hloop
  end; [|discriminate].
  apply interaction_loop_log in Hloop.
  destruct Hloop as (pre & line & post & turns & st2 & -> & Hpre & Hline
                     & Hturns & ->).
  rewrite take_turns_frame in Hturns.
  destruct (take_turns pre st) as [[turns'|e] st3] eqn:Ht3;
    cbn [fst snd] in Hturns; [|discriminate Hturns].
  inversion Hturns; subst; clear Hturns.
  rewrite set_io_set_io.
  unfold bind. cbn [read_transcript transcript set_io]. intros H.
  exists pre, line, post, turns, st3.
  split; [reflexivity|]. split; [exact Hpre|]. split; [exact Hline|].
  split; [exact Ht3|].
  split; [eapply take_turns_inputs; exact Ht3|].
  destruct turns as [|turn turns]; cbv [from_option id] in H.
  - rewrite bool_decide_eq_true_2 in H by reflexivity.
    inversion H; subst; clear H. cbn [self world calls transcript stdout].
    repeat split; try reflexivity. rewrite <- !app_assoc. reflexivity.
  - rewrite bool_decide_eq_false_2 in H.
    + inversion H; subst; clear H.
      cbn [self world calls transcript stdout]. cbv [from_option id].
      repeat split; try reflexivity.
      rewrite <- !app_assoc. reflexivity.
    + intros Heq.
      rewrite <- (append_nil_r file_header) in Heq at 2.
      apply (inj (String.app file_header)) in Heq.
      exact (transcript_body_nonempty _ _ Heq).
Qed.

Lemma interaction_loop_without_exit stdin :
  Forall (fun l => ~ is_exit l) stdin ->
  forall st,
    is_Some (transcript st) ->
    exists e,
      fst (interaction_loop stdin st) = Raise e
      /\ is_Some (transcript (snd (interaction_loop stdin st))).
Proof.
  induction 1 as [|l stdin Hl _ IH]; intros st Hsome;
    cbn [interaction_loop].
  - eexists. split; [reflexivity|exact Hsome].
  - rewrite bool_decide_eq_false_2 by exact Hl.
    unfold bind.
    pose proof (chat_completion_io (PyStr.strip l) st) as [_ Ht].
    destruct (chat_completion (PyStr.strip l) st) as [[answer|e] st1].
    + cbn [print append_transcript self world calls stdout transcript].
      apply IH. cbn [transcript]. eauto.
    + exists e. cbn [fst snd] in *. split; [reflexivity|].
      rewrite Ht. exact Hsome.
Qed.

(** A session ends normally only through [exit] or [quit]: when no line is
    one of them (the input runs out first), [run] is left by an exception,
    that of a failing turn or the [EOFError] of [input], and the transcript
    file stays behind, unfinished. *)
Theorem session_without_exit_raises stdin st :
  Forall (fun l => ~ is_exit l) stdin ->
  exists e,
    fst (run stdin st) = Raise e
    /\ is_Some (transcript (snd (run stdin st))).
Proof.
  intros Hno. unfold run. unfold bind. cbn [print write_transcript].
  match goal with |- context [interaction_loop stdin ?s0] =>
    destruct (interaction_loop_without_exit stdin Hno s0) as (e & He & Ht);
      [cbn; eauto|];
    destruct (interaction_loop stdin s0) as [[[]|e'] st1]
  end.
  - discriminate He.
  - cbn [fst snd] in *. exists e'. split; [reflexivity|exact Ht].
Qed.

End SessionEdges.

(** ** The model client *)

Section ClientEdges.
Context {World : Type}.

Lemma supported_cases provider :
  supported provider <->
  PyStr.lower provider = "anythingllm"
  \/ PyStr.lower provider = "lmstudio"
  \/ PyStr.lower provider = "nexa".
Proof.
  unfold supported. rewrite !elem_of_cons, elem_of_nil. tauto.
Qed.

Lemma supported_truthy provider :
  supported provider -> PyStr.truthy provider = true.
Proof.
  rewrite supported_cases. destruct provider; [|reflexivity].
  intros [H|[H|H]]; discriminate H.
Qed.

(** An interface that could be constructed has a supported provider, and
    from then on [chat_completion] is the client's [chat] (the provider
    checks cannot fail any more), unless streaming is asked for, which
    raises [NotImplementedError] before the client is reached. *)
Theorem constructed_interface_dispatches {Config : Type}
    (setup_a setup_l setup_n :
       Config -> Result (ModelInterface.Client (World:=World)))
    provider config mi :
  ModelInterface.__init__ setup_a setup_l setup_n provider config = Ok mi ->
  (exists p, provider = Some p /\ supported p)
  /\ (forall messages w,
        ModelInterface.chat_completion mi messages false w
        = ModelInterface.client_chat mi messages w)
  /\ (forall messages w,
        exists e,
          ModelInterface.chat_completion mi messages true w = (Raise e, w)
          /\ exn_cls e = NotImplementedError).
Proof.
  unfold ModelInterface.__init__, ModelInterface._setup_client.
  destruct provider as [p|]; [|discriminate].
  destruct (PyStr.truthy p) eqn:Ht; cbn [negb]; [|discriminate].
  intros H.
  assert (Hs : supported p).
  { apply supported_cases.
    repeat (case_bool_decide; [tauto|]). discriminate H. }
  assert (Hmi : ModelInterface.model_provider mi = Some p).
  { repeat case_bool_decide; try discriminate H;
      match type of H with
      | context [match ?r with Ok _ => _ | Raise _ => _ end] =>
          destruct r as [client|e]; inversion H; reflexivity
      end. }
  split; [eauto|].
  apply supported_cases in Hs.
  split; intros messages w; unfold ModelInterface.chat_completion;
    rewrite Hmi, Ht; cbn [negb].
  - repeat (case_bool_decide; [reflexivity|]). tauto.
  - repeat (case_bool_decide;
            [eexists; split; reflexivity|]). tauto.
Qed.

(** With the provider missing, empty or unknown, construction raises
    [ValueError] without setting up any client, and [chat_completion] on
    such an interface raises [ValueError] without reaching the client or
    the world. *)
Theorem unsupported_provider_raises {Config : Type}
    (setup_a setup_l setup_n :
       Config -> Result (ModelInterface.Client (World:=World)))
    provider config client messages stream (w : World) :
  (forall p, provider = Some p -> ~ supported p) ->
  (exists e,
      ModelInterface.__init__ setup_a setup_l setup_n provider config
      = Raise e /\ exn_cls e = ValueError)
  /\ (exists e,
        ModelInterface.chat_completion
          {| ModelInterface.model_provider := provider;
             ModelInterface.client_chat := client |} messages stream w
        = (Raise e, w)
        /\ exn_cls e = ValueError).
Proof.
  intros Hun.
  unfold ModelInterface.__init__, ModelInterface._setup_client,
    ModelInterface.chat_completion.
  cbn [ModelInterface.model_provider].
  destruct provider as [p|];
    [|split; eexists; split; reflexivity].
  specialize (Hun p eq_refl). rewrite supported_cases in Hun.
  destruct (PyStr.truthy p); cbn [negb];
    [|split; eexists; split; reflexivity].
  repeat (case_bool_decide; [tauto|]).
  split; eexists; split; reflexivity.
Qed.

(** [NexaClient.chat] raises exactly when [requests.post] does, and then
    the same exception.  Once there is a response, whatever its status
    code and its payload, [chat] does not raise: it returns the value found
    under [content], be it a string or not, or else one of the two error
    texts. *)
Theorem chat_raises_only_with_post requests_post (client : NexaClient.t)
    messages (w w' : World) :
  (forall e,
      NexaClient.chat requests_post client messages w = (Raise e, w')
      <-> requests_post (NexaClient.chat_url client)
            (NexaClient.data messages) w = (Raise e, w'))
  /\ (forall response,
        requests_post (NexaClient.chat_url client)
          (NexaClient.data messages) w = (Ok response, w') ->
        exists value,
          NexaClient.chat requests_post client messages w = (Ok value, w')
          /\ (NexaClient.completion response = Ok value
              \/ exists e,
                  NexaClient.completion response = Raise e
                  /\ value = NexaClient.Text (error_text e))).
Proof.
  unfold NexaClient.chat. split.
  - intros e.
    destruct (requests_post _ _ w) as [[response|e0] w0].
    + destruct (NexaClient.completion response) as [value|e1];
        [|destruct (is_ValueError e1)];
        split; intros H; discriminate H.
    + split; intros H; inversion H; subst; reflexivity.
  - intros response ->.
    destruct (NexaClient.completion response) as [value|e1] eqn:Hc.
    + exists value. auto.
    + exists (NexaClient.Text (error_text e1)). split.
      * unfold error_text. destruct (is_ValueError e1); reflexivity.
      * right. eauto.
Qed.

End ClientEdges.

(** ** How the parts compose *)

Section Compositions.
Context {World : Type}.
Implicit Types (st : St World) (u : string).

Lemma error_text_is_plain e :
  Re.re_match tool_call_pattern (PyStr.strip (error_text e)) = None.
Proof.
  unfold error_text. destruct (is_ValueError e); [vm_compute; reflexivity|].
  assert (Hs : exists rest,
             PyStr.strip ("Chat request failed. Error: " +:+ exn_str e)
             = String "C" (String "h" (String "a" (String "t"
                 (String " " rest))))).
  { unfold PyStr.strip. rewrite list_ascii_of_append.
    set (tail := list_ascii_of_string (exn_str e)).
    change (list_ascii_of_string "Chat request failed. Error: ")
      with (["C"; "h"; "a"; "t"; " "]%char
              ++ "r"%char
                 :: list_ascii_of_string "equest failed. Error: ").
    rewrite <- app_assoc. cbn [app PyStr.lstrip_chars].
    change (PyStr.isspace "C") with false. cbn iota.
    change ("C" :: "h" :: "a" :: "t" :: " " :: "r"
              :: list_ascii_of_string "equest failed. Error: " ++ tail)%char
      with (["C"; "h"; "a"; "t"; " "]%char
              ++ "r"%char
                 :: (list_ascii_of_string "equest failed. Error: " ++ tail)).
    rewrite rstrip_chars_app_nonspace by reflexivity.
    eexists. reflexivity. }
  destruct Hs as [rest ->].
  unfold Re.re_match, tool_call_pattern.
  cbn [Re.rmatch list_ascii_of_string fst snd]. rewrite Nat.eqb_refl.
  cbn [Re.in_class Re.star].
  change (PyStr.isword "C") with true.
  change (PyStr.isword "h") with true.
  change (PyStr.isword "a") with true.
  change (PyStr.isword "t") with true.
  change (PyStr.isword " ") with false.
  reflexivity.
Qed.

(** A response whose payload cannot be read does not fail the turn: with
    the Nexa client the error text is taken for the model's reply, is never
    mistaken for a tool call, becomes the answer and is recorded in the
    window as the assistant's message. *)
Theorem unreadable_payload_becomes_the_answer
    requests_post provider (client : NexaClient.t) st u response w e :
  model (self st) = nexa_model requests_post provider client ->
  PyStr.lower provider = "nexa" ->
  requests_post (NexaClient.chat_url client)
      (NexaClient.data (_build_prompt (self st) u)) (world st)
    = (Ok response, w) ->
  NexaClient.completion response = Raise e ->
  chat_completion u st =
    finish u (PyStr.strip (error_text e))
      (after_model st (_build_prompt (self st) u) w).
Proof.
  intros Hmodel Hp Hpost He.
  rewrite chat_completion_cases. cbn zeta. rewrite Hmodel.
  unfold nexa_model, ModelInterface.chat_completion.
  cbn [ModelInterface.model_provider ModelInterface.client_chat].
  assert (Ht : PyStr.truthy provider = true).
  { destruct provider; [discriminate Hp|reflexivity]. }
  rewrite Ht, Hp. cbn [negb].
  repeat (case_bool_decide; [discriminate|]).
  case_bool_decide; [|congruence].
  unfold as_text. rewrite (chat_on_response _ _ _ _ _ _ Hpost), He.
  fold (error_text e). rewrite error_text_is_plain. reflexivity.
Qed.

(** The roles in the prompt: everything before the last message, the
    window entries included, is sent with role [system]; the last message
    is the user input as given. *)
Theorem prompt_roles (a : Agent World) user_input :
  exists pre,
    _build_prompt a user_input = pre ++ [Msg user user_input]
    /\ Forall (fun message => role message = system) pre
    /\ (length (short_memory a) < length pre)%nat.
Proof.
  unfold _build_prompt. eexists. split; [reflexivity|].
  set (head := if negb (_disable_long_memory a)
                  && PyStr.truthy (long_memory a)
               then _ else _).
  assert (Hhead : Forall (fun message => role message = system) head
                  /\ (0 < length head)%nat).
  { unfold head. destruct (_ && _); split; repeat constructor. }
  destruct Hhead as [Hall Hlen].
  destruct (short_memory a) as [|m window]; [split; assumption|].
  rewrite fold_left_append. split.
  - rewrite !Forall_app. split; [split|]; [exact Hall|repeat constructor|].
    apply Forall_map. apply Forall_true. reflexivity.
  - rewrite !length_app, length_map. cbn [length]. lia.
Qed.

(** What the next prompt shows of a completed turn: with room for a whole
    turn in the window ([W >= 2]), the two lines just before the new user
    message are the previous input and the previous answer. *)
Theorem next_prompt_shows_last_turn u st answer st' next_input :
  chat_completion u st = (Ok answer, st') ->
  2 <= _max_short_memory (self st) ->
  exists pre,
    _build_prompt (self st') next_input =
      pre ++ [Msg system ("User: " +:+ u);
              Msg system ("Assistant: " +:+ answer);
              Msg user next_input].
Proof.
  intros H HW.
  destruct (chat_completion_ok_finish u st answer st' H)
    as (result & st1 & Hs & Hfin).
  apply finish_ok in Hfin. destruct Hfin as [Heq Hmem]. subst result.
  pose proof (_handle_memory_window u answer st1) as Hw.
  rewrite Hmem in Hw. cbn [snd] in Hw.
  rewrite pop_loop_closed_form in Hw. cbn [fst snd] in Hw.
  unfold appended in Hw. rewrite Hs in Hw.
  rewrite <- app_assoc in Hw. cbn [app] in Hw.
  rewrite drop_app_le in Hw
    by (unfold excess; rewrite length_app; cbn [length]; lia).
  unfold _build_prompt. rewrite Hw.
  destruct (drop _ (short_memory (self st)) ++ _) as [|m window] eqn:Hd.
  { apply (f_equal length) in Hd. rewrite length_app in Hd.
    cbn in Hd. lia. }
  rewrite <- Hd, fold_left_append, map_app. cbn [map].
  eexists. rewrite app_assoc. rewrite <- (app_assoc _ _ [Msg user _]).
  reflexivity.
Qed.

Lemma tools_dict_fold (ts : list (Tool World))
    (d : gmap string (Tool World)) n :
  fold_left (fun d tool => <[tool_name tool := tool]> d) ts d !! n =
    match last (filter (fun tool => tool_name tool = n) ts) with
    | Some tool => Some tool
    | None => d !! n
    end.
Proof.
  revert d. induction ts as [|t ts IH]; intros d; [reflexivity|].
  cbn [fold_left]. rewrite IH, filter_cons.
  destruct (decide (tool_name t = n)) as [Heq|Hne].
  - rewrite last_cons.
    destruct (last (filter _ ts)); [reflexivity|].
    rewrite Heq. apply lookup_insert_eq.
  - destruct (last (filter _ ts)); [reflexivity|].
    apply lookup_insert_ne. exact Hne.
Qed.

(** The registry built by [__init__]: looking a name up gives the last
    tool of the list that carries it, and nothing when none does. *)
Theorem registry_lookup model (ts : list (Tool World)) identity config n :
  tools (__init__ model ts identity config) !! n =
    last (filter (fun tool => tool_name tool = n) ts).
Proof.
  cbn [__init__ tools]. unfold tools_dict. rewrite tools_dict_fold.
  destruct (last _); [reflexivity|apply lookup_empty].
Qed.

End Compositions.

(** ** Sessions without long-term memory *)

Section WithoutLongMemory.
Context {World : Type}.
Implicit Types (st : St World) (u r : string).

Lemma _handle_memory_disabled u r st :
  _disable_long_memory (self st) = true ->
  let st' := snd (_handle_memory u r st) in
  calls st' = calls st
  /\ long_memory (self st') = long_memory (self st)
  /\ _disable_long_memory (self st') = true.
Proof.
  intros Hd. cbn zeta. rewrite _handle_memory_cases. cbn zeta. rewrite Hd.
  destruct (pop_loop _ _ _) as [[[]|e] [short [|m popped]]];
    cbn; auto.
Qed.

Lemma chat_completion_disabled u st :
  _disable_long_memory (self st) = true ->
  let st' := snd (chat_completion u st) in
  calls st' = calls st ++ [_build_prompt (self st) u]
  /\ long_memory (self st') = long_memory (self st)
  /\ _disable_long_memory (self st') = true.
Proof.
  intros Hd. cbn zeta. rewrite chat_completion_cases. cbn zeta.
  assert (Hfinish : forall result st1,
            self st1 = self st ->
            calls st1 = calls st ++ [_build_prompt (self st) u] ->
            calls (snd (finish u result st1))
              = calls st ++ [_build_prompt (self st) u]
            /\ long_memory (self (snd (finish u result st1)))
               = long_memory (self st)
            /\ _disable_long_memory (self (snd (finish u result st1)))
               = true).
  { intros result st1 Hs Hc.
    assert (Hd1 : _disable_long_memory (self st1) = true)
      by (rewrite Hs; exact Hd).
    pose proof (_handle_memory_disabled u result st1 Hd1) as Hm.
    cbn zeta in Hm. unfold finish, bind, ret.
    destruct (_handle_memory u result st1) as [[[]|e] st2];
      cbn [snd] in *; rewrite <- Hc, <- Hs; exact Hm. }
  destruct (model _ _ _) as [[response|e] w]; [|cbn; auto].
  destruct (Re.re_match _ _) as [groups|]; [|apply Hfinish; reflexivity].
  destruct groups as [|name [|arg [|x groups]]]; try (cbn; auto; fail).
  destruct (tools (self st) !! name) as [tool|];
    [|apply Hfinish; reflexivity].
  destruct (tool_run tool arg w) as [[v|e] w2];
    [apply Hfinish; reflexivity|cbn; auto].
Qed.

Lemma _build_prompt_primary (a : Agent World) u : primary (_build_prompt a u).
Proof. unfold primary, _build_prompt. eauto. Qed.

Lemma interaction_loop_disabled stdin :
  forall st,
    _disable_long_memory (self st) = true ->
    let st' := snd (interaction_loop stdin st) in
    long_memory (self st') = long_memory (self st)
    /\ _disable_long_memory (self st') = true
    /\ exists new, calls st' = calls st ++ new /\ Forall primary new.
Proof.
  induction stdin as [|l stdin IH]; intros st Hd; cbn zeta;
    cbn [interaction_loop].
  - cbn. repeat split; auto. exists []. rewrite app_nil_r. auto.
  - destruct (bool_decide _).
    + cbn. repeat split; auto. exists []. rewrite app_nil_r. auto.
    + unfold bind.
      pose proof (chat_completion_disabled (PyStr.strip l) st Hd)
        as (Hc & Hl & Hd').
      destruct (chat_completion (PyStr.strip l) st) as [[answer|e] st1];
        cbn [snd] in Hc, Hl, Hd'.
      * cbn [print append_transcript self world calls stdout transcript].
        match goal with |- context [interaction_loop stdin ?s0] =>
          destruct (IH s0 Hd') as (Hl2 & Hd2 & new & Hc2 & Hnew)
        end.
        cbn [self calls] in Hl2, Hc2.
        split; [congruence|]. split; [exact Hd2|].
        exists (_build_prompt (self st) (PyStr.strip l) :: new).
        split; [rewrite Hc2, Hc, <- app_assoc; reflexivity|].
        constructor; [apply _build_prompt_primary|exact Hnew].
      * cbn [snd]. split; [exact Hl|]. split; [exact Hd'|].
        exists [_build_prompt (self st) (PyStr.strip l)].
        split; [exact Hc|].
        constructor; [apply _build_prompt_primary|constructor].
Qed.

(** Under the default configuration (the key [DISABLE_LONG_MEMORY] absent,
    or set to true) a whole session never writes the summary and never
    asks the model for one: the summary is empty at the end and every
    prompt sent was the prompt of a turn. *)
Theorem default_configuration_never_summarises
    model (ts : list (Tool World)) identity config stdin (w : World) :
  DISABLE_LONG_MEMORY config = None \/ DISABLE_LONG_MEMORY config = Some true ->
  let st := {| self := __init__ model ts identity config; world := w;
               calls := []; stdout := []; transcript := None |} in
  let st' := snd (run stdin st) in
  long_memory (self st') = "" /\ Forall primary (calls st').
Proof.
  intros Hcfg. cbn zeta.
  assert (Hd : _disable_long_memory (__init__ model ts identity config) = true).
  { cbn [__init__ _disable_long_memory].
    destruct Hcfg as [-> | ->]; reflexivity. }
  unfold run, bind. cbn [print write_transcript].
  match goal with |- context [interaction_loop stdin ?s0] =>
    destruct (interaction_loop_disabled stdin s0 Hd)
      as (Hl & _ & new & Hc & Hnew);
    destruct (interaction_loop stdin s0) as [[[]|e] st1]
  end; cbn [snd self calls] in Hl, Hc; cbn [app] in Hc.
  - cbn [read_transcript]. destruct (bool_decide _); cbn;
      rewrite Hl, Hc; auto.
  - cbn. rewrite Hl, Hc. auto.
Qed.

End WithoutLongMemory.

(** ** The further properties on the test fixtures *)

Section FurtherOnFixtures.
Import Fixtures.

Lemma Echo_identifier : identifier "Echo".
Proof. split; [discriminate|]. repeat constructor. Qed.

Lemma call_text_parses_witness :
  identifier "Echo"
  /\ (PyStr.strip (call_text "Echo" "f(x) (y)") = call_text "Echo" "f(x) (y)"
      /\ Re.re_match tool_call_pattern
           (PyStr.strip (call_text "Echo" "f(x) (y)"))
         = Some ["Echo"; "f(x) (y)"]).
Proof.
  split; [exact Echo_identifier|].
  apply (call_text_parses "Echo" "f(x) (y)"). exact Echo_identifier.
Defined.

Lemma registered_call_runs_tool_witness :
  let st := start (agent " Echo(a(b)) " 20 true false) in
  let prompt := _build_prompt (self st) "hi" in
  model (self st) prompt (world st) = (Ok " Echo(a(b)) ", tt)
  /\ identifier "Echo"
  /\ PyStr.strip " Echo(a(b)) " = call_text "Echo" "a(b)"
  /\ tools (self st) !! "Echo" = Some Echo
  /\ chat_completion "hi" st =
       (let st1 := after_model st prompt tt in
        match tool_run Echo "a(b)" tt with
        | (Ok v, w2) => finish "hi" (PyStr.strip v) (set_world w2 st1)
        | (Raise e, w2) => (Raise e, set_world w2 st1)
        end).
Proof.
  cbn zeta. split; [reflexivity|]. split; [exact Echo_identifier|].
  split; [vm_compute; reflexivity|]. split; [vm_compute; reflexivity|].
  apply (registered_call_runs_tool "hi"
           (start (agent " Echo(a(b)) " 20 true false))
           " Echo(a(b)) " tt "Echo" "a(b)" Echo).
  - reflexivity.
  - exact Echo_identifier.
  - vm_compute. reflexivity.
  - vm_compute. reflexivity.
Defined.

Lemma hello_is_plain :
  forall name arg,
    identifier name -> PyStr.strip "Hello, world!" <> call_text name arg.
Proof.
  intros name arg Hid Hs.
  pose proof (re_match_call_text name arg Hid) as Hm.
  rewrite <- Hs in Hm. vm_compute in Hm. discriminate Hm.
Qed.

Lemma plain_reply_is_the_answer_witness :
  let st := start (agent "Hello, world!" 20 true false) in
  let prompt := _build_prompt (self st) "test message" in
  model (self st) prompt (world st) = (Ok "Hello, world!", tt)
  /\ (forall name arg,
        identifier name -> PyStr.strip "Hello, world!" <> call_text name arg)
  /\ chat_completion "test message" st =
       finish "test message" (PyStr.strip "Hello, world!")
         (after_model st prompt tt).
Proof.
  cbn zeta. split; [reflexivity|]. split; [exact hello_is_plain|].
  apply (plain_reply_is_the_answer "test message"
           (start (agent "Hello, world!" 20 true false)) "Hello, world!" tt).
  - reflexivity.
  - exact hello_is_plain.
Defined.

Lemma no_eviction_below_bound_witness :
  let st := start (agent "Hello" 2 false false) in
  Z.of_nat (length (short_memory (self st))) + 2
    <= _max_short_memory (self st)
  /\ _handle_memory "a" "b" st =
       (Ok tt,
        with_self
          (set_short_memory
             (short_memory (self st) ++ [Msg user "a"; Msg assistant "b"]))
          st).
Proof.
  cbn zeta. split; [vm_compute; discriminate|].
  apply (no_eviction_below_bound "a" "b" (start (agent "Hello" 2 false false))).
  vm_compute. discriminate.
Defined.

Lemma negative_bound_always_raises_witness :
  let st := start (agent "Hello" (-1) false false) in
  _max_short_memory (self st) < 0
  /\ _handle_memory "a" "b" st =
       (Raise (Exn IndexError "pop from empty list"),
        with_self (set_short_memory []) st).
Proof.
  cbn zeta. split; [reflexivity|].
  apply (negative_bound_always_raises "a" "b"
           (start (agent "Hello" (-1) false false))).
  reflexivity.
Defined.

Lemma full_window_slides_witness :
  let st' := snd (_handle_memory "second" "Hello" full) in
  2 <= _max_short_memory (self full)
  /\ Z.of_nat (length (short_memory (self full)))
     = _max_short_memory (self full)
  /\ (short_memory (self st') =
        drop 2 (short_memory (self full))
          ++ [Msg user "second"; Msg assistant "Hello"]
      /\ Z.of_nat (length (short_memory (self st')))
         = _max_short_memory (self full)).
Proof.
  cbn zeta. split; [vm_compute; discriminate|]. split; [reflexivity|].
  apply (full_window_slides "second" "Hello" full).
  - vm_compute. discriminate.
  - reflexivity.
Defined.

Lemma at_most_two_evicted_witness :
  bounded full
  /\ pop_loop (_max_short_memory (self full))
        (short_memory (self full)
           ++ [Msg user "second"; Msg assistant "Hello"]) []
     = (Ok tt,
        ([Msg user "second"; Msg assistant "Hello"],
         [Msg user "first"; Msg assistant "Hello"]))
  /\ (length [Msg user "first"; Msg assistant "Hello"] <= 2)%nat.
Proof.
  assert (Hb : bounded full) by (vm_compute; discriminate).
  split; [exact Hb|]. split; [vm_compute; reflexivity|].
  apply (at_most_two_evicted "second" "Hello" full
           [Msg user "second"; Msg assistant "Hello"]
           [Msg user "first"; Msg assistant "Hello"]).
  - exact Hb.
  - vm_compute. reflexivity.
Defined.

Lemma full_is_paired : paired (short_memory (self full)).
Proof. exists [("first", "Hello")]. reflexivity. Qed.

Lemma window_stays_paired_witness :
  paired (short_memory (self full))
  /\ paired (short_memory (self (snd (_handle_memory "second" "Hello" full)))).
Proof.
  split; [exact full_is_paired|].
  apply (window_stays_paired "second" "Hello" full). exact full_is_paired.
Defined.

Lemma failed_call_leaves_memory_witness :
  let st := start nexa_agent in
  (exists w,
      model (self st) (_build_prompt (self st) "hi") (world st)
      = (Raise refused, w))
  /\ (fst (chat_completion "hi" st) = Raise refused
      /\ self (snd (chat_completion "hi" st)) = self st).
Proof.
  cbn zeta. split; [exists tt; reflexivity|].
  apply (failed_call_leaves_memory "hi" (start nexa_agent) refused).
  left. exists tt. reflexivity.
Defined.

Lemma answers_are_stripped_witness :
  let st := start (agent "  Hello  " 20 true false) in
  chat_completion "hi" st = (Ok "Hello", snd (chat_completion "hi" st))
  /\ PyStr.strip "Hello" = "Hello".
Proof.
  cbn zeta. split; [vm_compute; reflexivity|].
  apply (answers_are_stripped "hi"
           (start (agent "  Hello  " 20 true false)) "Hello"
           (snd (chat_completion "hi"
                   (start (agent "  Hello  " 20 true false))))).
  vm_compute. reflexivity.
Defined.

Lemma quit_is_exit : is_exit "  QUIT ".
Proof. apply (bool_decide_unpack _). vm_compute. exact I. Qed.

Lemma exit_at_first_line_witness :
  let st := start (agent "Hello" 20 true false) in
  is_exit "  QUIT "
  /\ run ["  QUIT "; "never read"] st =
       (Ok tt,
        {| self := self st; world := world st; calls := calls st;
           stdout := (stdout st ++ ["Type 'exit' or 'quit' to end the chat."])
                     ++ ["Goodbye!"];
           transcript := None |}).
Proof.
  cbn zeta. split; [exact quit_is_exit|].
  apply (exit_at_first_line "  QUIT " ["never read"]
           (start (agent "Hello" 20 true false))).
  exact quit_is_exit.
Defined.

Lemma nothing_read_after_exit_witness :
  let st := start (agent "Hello" 20 true false) in
  is_exit "  QUIT "
  /\ run (["a"] ++ "  QUIT " :: ["b"; "c"]) st = run (["a"] ++ ["  QUIT "]) st.
Proof.
  cbn zeta. split; [exact quit_is_exit|].
  apply (nothing_read_after_exit ["a"] "  QUIT " ["b"; "c"]
           (start (agent "Hello" 20 true false))).
  exact quit_is_exit.
Defined.

Lemma transcript_of_session_witness :
  let st := start (agent "Hello" 20 true false) in
  let st' := snd (run [" a "; "exit"; "b"] st) in
  run [" a "; "exit"; "b"] st = (Ok tt, st')
  /\ exists pre line post turns st1,
      [" a "; "exit"; "b"] = pre ++ line :: post
      /\ Forall (fun l => ~ is_exit l) pre
      /\ is_exit line
      /\ take_turns pre st = (Ok turns, st1)
      /\ map fst turns = map PyStr.strip pre
      /\ self st' = self st1
      /\ world st' = world st1
      /\ calls st' = calls st1
      /\ transcript st' =
           match turns with
           | [] => None
           | _ :: _ =>
               Some (file_header +:+ transcript_body turns +:+ file_footer)
           end
      /\ stdout st' =
           stdout st ++ ["Type 'exit' or 'quit' to end the chat."]
             ++ map (fun turn => "Agent: " +:+ snd turn) turns
             ++ ["Goodbye!"].
Proof.
  cbn zeta. split; [vm_compute; reflexivity|].
  apply (transcript_of_session [" a "; "exit"; "b"]
           (start (agent "Hello" 20 true false))).
  vm_compute. reflexivity.
Defined.

Lemma no_exit_lines : Forall (fun l => ~ is_exit l) ["a"; "b"].
Proof.
  repeat constructor; apply (bool_decide_unpack _); vm_compute; exact I.
Qed.

Lemma session_without_exit_raises_witness :
  let st := start (agent "Hello" 20 true false) in
  Forall (fun l => ~ is_exit l) ["a"; "b"]
  /\ exists e,
      fst (run ["a"; "b"] st) = Raise e
      /\ is_Some (transcript (snd (run ["a"; "b"] st))).
Proof.
  cbn zeta. split; [exact no_exit_lines|].
  apply (session_without_exit_raises ["a"; "b"]
           (start (agent "Hello" 20 true false))).
  exact no_exit_lines.
Defined.

Lemma constructed_interface_dispatches_witness :
  let mi := {| ModelInterface.model_provider := Some "LMStudio";
               ModelInterface.client_chat := DummyModel "Hello" |} in
  ModelInterface.__init__ setup_dummy setup_dummy setup_dummy
    (Some "LMStudio") tt = Ok mi
  /\ ((exists p, Some "LMStudio" = Some p /\ supported p)
      /\ (forall messages w,
            ModelInterface.chat_completion mi messages false w
            = ModelInterface.client_chat mi messages w)
      /\ (forall messages w,
            exists e,
              ModelInterface.chat_completion mi messages true w
              = (Raise e, w)
              /\ exn_cls e = NotImplementedError)).
Proof.
  cbn zeta. split; [vm_compute; reflexivity|].
  apply (constructed_interface_dispatches setup_dummy setup_dummy setup_dummy
           (Some "LMStudio") tt).
  vm_compute. reflexivity.
Defined.

Lemma openai_unsupported :
  forall p, Some "openai" = Some p -> ~ supported p.
Proof.
  intros p Hp. inversion Hp; subst.
  apply (bool_decide_unpack _). vm_compute. exact I.
Qed.

Lemma unsupported_provider_raises_witness :
  (forall p, Some "openai" = Some p -> ~ supported p)
  /\ ((exists e,
         ModelInterface.__init__ setup_dummy setup_dummy setup_dummy
           (Some "openai") tt = Raise e
         /\ exn_cls e = ValueError)
      /\ (exists e,
            ModelInterface.chat_completion
              {| ModelInterface.model_provider := Some "openai";
                 ModelInterface.client_chat := DummyModel "Hello" |}
              [Msg user "hi"] false tt
            = (Raise e, tt)
            /\ exn_cls e = ValueError)).
Proof.
  split; [exact openai_unsupported|].
  apply (unsupported_provider_raises setup_dummy setup_dummy setup_dummy
           (Some "openai") tt (DummyModel "Hello") [Msg user "hi"] false tt).
  exact openai_unsupported.
Defined.

Lemma unreadable_payload_becomes_the_answer_witness :
  let st := start garbled_agent in
  let prompt := _build_prompt (self st) "hi" in
  let response := {| NexaClient.status_code := 500;
                     NexaClient.completion := Raise no_choices |} in
  model (self st) = nexa_model garbled "Nexa" nexa_client
  /\ PyStr.lower "Nexa" = "nexa"
  /\ garbled (NexaClient.chat_url nexa_client) (NexaClient.data prompt)
       (world st) = (Ok response, tt)
  /\ NexaClient.completion response = Raise no_choices
  /\ chat_completion "hi" st =
       finish "hi" (PyStr.strip (error_text no_choices))
         (after_model st prompt tt).
Proof.
  cbn zeta. split; [reflexivity|]. split; [vm_compute; reflexivity|].
  split; [reflexivity|]. split; [reflexivity|].
  apply (unreadable_payload_becomes_the_answer garbled "Nexa" nexa_client
           (start garbled_agent) "hi"
           {| NexaClient.status_code := 500;
              NexaClient.completion := Raise no_choices |} tt no_choices).
  - reflexivity.
  - vm_compute. reflexivity.
  - reflexivity.
  - reflexivity.
Defined.

Lemma chat_raises_only_with_post_witness :
  let response := {| NexaClient.status_code := 500;
                     NexaClient.completion := Raise no_choices |} in
  garbled (NexaClient.chat_url nexa_client)
    (NexaClient.data [Msg user "hi"]) tt = (Ok response, tt)
  /\ exists value,
      NexaClient.chat garbled nexa_client [Msg user "hi"] tt = (Ok value, tt)
      /\ (NexaClient.completion response = Ok value
          \/ exists e,
              NexaClient.completion response = Raise e
              /\ value = NexaClient.Text (error_text e)).
Proof.
  cbn zeta. split; [reflexivity|].
  apply (proj2 (chat_raises_only_with_post garbled nexa_client
                  [Msg user "hi"] tt tt)).
  reflexivity.
Defined.

(** A reply that is not a string: [chat] returns it without raising; the
    turn then fails on [response.strip()], once the call is made and with
    the memory untouched. *)
Example null_content_turn :
  NexaClient.chat null_content nexa_client [Msg user "hi"] tt
    = (Ok (NexaClient.NotText "NoneType"), tt)
  /\ (let out := chat_completion "hi" (start null_agent) in
      fst out =
        Raise (Exn (OtherException "AttributeError")
                 "'NoneType' object has no attribute 'strip'")
      /\ length (calls (snd out)) = 1%nat
      /\ self (snd out) = null_agent).
Proof. cbn zeta. repeat split; vm_compute; reflexivity. Qed.

(** What the user of the garbled endpoint sees and what the window keeps. *)
Example garbled_turn :
  let out := chat_completion "hi" (start garbled_agent) in
  fst out = Ok "Chat request failed. Error: 'choices'"
  /\ short_memory (self (snd out)) =
       [Msg user "hi";
        Msg assistant "Chat request failed. Error: 'choices'"].
Proof. cbn zeta. split; vm_compute; reflexivity. Qed.

Lemma next_prompt_shows_last_turn_witness :
  let st := start (agent "Hello" 2 true false) in
  let st' := snd (chat_completion "first" st) in
  chat_completion "first" st = (Ok "Hello", st')
  /\ 2 <= _max_short_memory (self st)
  /\ exists pre,
      _build_prompt (self st') "second" =
        pre ++ [Msg system ("User: " +:+ "first");
                Msg system ("Assistant: " +:+ "Hello");
                Msg user "second"].
Proof.
  cbn zeta. split; [vm_compute; reflexivity|].
  split; [vm_compute; discriminate|].
  apply (next_prompt_shows_last_turn "first"
           (start (agent "Hello" 2 true false)) "Hello"
           (snd (chat_completion "first"
                   (start (agent "Hello" 2 true false)))) "second").
  - vm_compute. reflexivity.
  - vm_compute. discriminate.
Defined.

Lemma default_configuration_never_summarises_witness :
  let config := {| LONG_MEMORY_SIZE := None; DISABLE_LONG_MEMORY := None;
                   SHORT_MEMORY_SIZE := Some 1;
                   DISABLE_SHORT_MEMORY := None |} in
  let st := {| self := __init__ (DummyModel "Hello") [Echo] "identity" config;
               world := tt; calls := []; stdout := [];
               transcript := None |} in
  let st' := snd (run ["a"; "b"; "exit"] st) in
  (DISABLE_LONG_MEMORY config = None
   \/ DISABLE_LONG_MEMORY config = Some true)
  /\ (long_memory (self st') = "" /\ Forall primary (calls st')).
Proof.
  cbn zeta. split; [left; reflexivity|].
  apply (default_configuration_never_summarises (DummyModel "Hello") [Echo]
           "identity"
           {| LONG_MEMORY_SIZE := None; DISABLE_LONG_MEMORY := None;
              SHORT_MEMORY_SIZE := Some 1; DISABLE_SHORT_MEMORY := None |}
           ["a"; "b"; "exit"] tt).
  left. reflexivity.
Defined.

Lemma run_bounded_witness :
  let st := start (agent "Hello" 3 true false) in
  let st' := snd (run ["a"; "b"; "c"; "exit"] st) in
  short_memory (self st) = []
  /\ 0 <= _max_short_memory (self st)
  /\ run ["a"; "b"; "c"; "exit"] st = (Ok tt, st')
  /\ bounded st'.
Proof.
  cbn zeta. split; [reflexivity|]. split; [vm_compute; discriminate|].
  split; [vm_compute; reflexivity|].
  apply (run_bounded ["a"; "b"; "c"; "exit"]
           (start (agent "Hello" 3 true false))).
  - reflexivity.
  - vm_compute. discriminate.
  - vm_compute. reflexivity.
Defined.

Lemma _handle_memory_returns_witness :
  let st := start (agent "Hello" 0 false false) in
  0 <= _max_short_memory (self st)
  /\ (forall prompt, exists summary w,
        model (self st) prompt (world st) = (Ok summary, w))
  /\ exists st', _handle_memory "a" "b" st = (Ok tt, st').
Proof.
  cbn zeta. split; [vm_compute; discriminate|].
  split; [intros prompt; exists "Hello", tt; reflexivity|].
  apply (_handle_memory_returns "a" "b" (start (agent "Hello" 0 false false))).
  - vm_compute. discriminate.
  - intros prompt. exists "Hello", tt. reflexivity.
Defined.

End FurtherOnFixtures.
